(** * Consumo_De_Apis: the refresh pipeline and the view loader of [app.py]

    A shallow embedding of [fetch_and_store_data] and [load_data] together
    with the parts of Python, [sqlite3] and pandas they rely on, and the
    properties of the specification stated over it.

    - Python [str] values are sequences of Unicode code points.
    - The SQLite file is a [database]: the table [users] is absent or is a
      finite map from the primary key to the five text columns.
    - The body of each function runs in a small state-and-exception monad
      over the open connection.
    - The Streamlit memoization decorators are left out of
      [fetch_and_store_data] and [load_data], which describe one run of
      the function body; [cached_fetch] and [cached_load] put them back
      for the refresh button of [main].
    - JSON numbers with a fractional part are not represented.
    - The export [df.to_csv(index=False)] is the writer of Python's [csv]
      module as pandas sets it up; the repository has no reader, the one
      here follows the specification. *)

From Stdlib Require Import ZArith NArith List Ascii String Lia Bool.
From Stdlib Require Import Decimal DecimalString DecimalZ DecimalFacts.
#[local] Set Warnings "-register-all".

From stdpp Require Import base option list gmap sorting.

Local Open Scope Z_scope.

(** ** Python strings *)

(** A code point; a [str] never holds a value above [0x10FFFF]. *)
Definition codepoint := N.
Definition str := list codepoint.

(** A string literal of the source, read character by character. *)
Definition lit (s : string) : str := map N_of_ascii (list_ascii_of_string s).

Definition len (s : str) : Z := Z.of_nat (length s).

(** [c in s] for a one-character [c]. *)
Definition contains (c : codepoint) (s : str) : bool := existsb (N.eqb c) s.

(** [s.split(sep)] for a one-character separator: the pieces between the
    occurrences of [sep], in order; never the empty list. *)
Fixpoint split (sep : codepoint) (s : str) : list str :=
  match s with
  | [] => [[]]
  | c :: s' =>
      if N.eqb c sep then [] :: split sep s'
      else match split sep s' with
           | [] => [[c]]
           | w :: ws => (c :: w) :: ws
           end
  end.

(** [l[-1]] on a list of strings; [split] never returns an empty list, so
    the [IndexError] branch of Python is never taken and the default is
    never used (lemma [split_not_nil]). *)
Definition item_last (l : list str) : str := List.last l [].

Definition is_ascii (c : codepoint) : bool := N.ltb c 128.

Definition ascii_lower (c : codepoint) : codepoint :=
  if N.leb 65 c && N.leb c 90 then (c + 32)%N else c.

(** The behaviour of the Python and SQLite run times that the program
    inherits and that is not spelled out here. *)
Class Runtime := {
  (** [str.lower] on a string holding a non-ASCII character (the Unicode
      case mapping) *)
  unicode_lower : str -> str;
  (** SQLite's conversion of a text value bound to the INTEGER PRIMARY KEY
      column: the integer it denotes, or nothing (datatype mismatch) *)
  rowid_of_text : str -> option Z;
  (** the row id SQLite picks at random once the largest one is in use,
      given the ids in use *)
  random_rowid : list Z -> option Z;
  (** [os.linesep] is a carriage return and a line feed (else a line
      feed alone) *)
  os_linesep_crlf : bool;
  (** the [csv] writer quotes a field holding a carriage return or a line
      feed even when the line terminator does not hold it *)
  csv_quotes_newlines : bool
}.

Definition at_sign : codepoint := 64%N.

(** [str(None)] *)
Definition str_None : str := lit "None".

Section Derived.
Context {RT : Runtime}.

(** [s.lower()] *)
Definition lower (s : str) : str :=
  if forallb is_ascii s then map ascii_lower s else unicode_lower s.

(** What [Series.astype(str)] does to one cell of an object column read
    from a TEXT column: a string stays, NULL ([None]) becomes ["None"]. *)
Definition astype_str (cell : option str) : str :=
  match cell with
  | Some s => s
  | None => str_None
  end.

(** [lambda x: x.split('@')[-1].lower() if '@' in str(x) else None] *)
Definition email_domain_of (x : str) : option str :=
  if contains at_sign x then Some (lower (item_last (split at_sign x)))
  else None.

End Derived.

(** ** Python values and exceptions *)

(** What [response.json()] can return (numbers are integers here). A
    [PyDict] lists each key once, as a Python [dict] does. *)
Inductive pyval :=
| PyNone
| PyBool (b : bool)
| PyInt (z : Z)
| PyStr (s : str)
| PyList (l : list pyval)
| PyDict (d : list (str * pyval)).

(** The exceptions the two functions can meet. *)
Inductive exn :=
| RequestException          (* [requests.get] failed: no route, timeout, ... *)
| JSONDecodeError           (* the body is not JSON *)
| TypeError                 (* the parsed body cannot be iterated *)
| AttributeError            (* an element of the body has no [get] *)
| BindingError              (* sqlite3 cannot bind a list or a dict *)
| OverflowError             (* an integer outside SQLite's 64 bits *)
| UnicodeEncodeError        (* a lone surrogate in a string to bind *)
| DatatypeMismatch          (* a text that is no integer as primary key *)
| DatabaseFull              (* no row id left *)
| NoSuchTable.              (* [no such table: users] *)

Inductive outcome (A : Type) :=
| Returned (a : A)
| Raised (e : exn).
Arguments Returned {A} a.
Arguments Raised {A} e.

Fixpoint dict_lookup (k : str) (d : list (str * pyval)) : option pyval :=
  match d with
  | [] => None
  | (k', v) :: d' => if decide (k' = k) then Some v else dict_lookup k d'
  end.

(** [u.get(k)]: the value under [k], [None] when the key is missing; only
    a [dict] has the method. *)
Definition py_get (u : pyval) (k : str) : outcome pyval :=
  match u with
  | PyDict d => Returned (default PyNone (dict_lookup k d))
  | _ => Raised AttributeError
  end.

(** The elements [for u in users] runs through. *)
Definition py_iter (v : pyval) : outcome (list pyval) :=
  match v with
  | PyList l => Returned l
  | PyDict d => Returned (map (fun kv => PyStr (fst kv)) d)
  | PyStr s => Returned (map (fun c => PyStr [c]) s)
  | _ => Raised TypeError
  end.

(** [len(users)] *)
Definition py_len (v : pyval) : outcome Z :=
  match v with
  | PyList l => Returned (Z.of_nat (length l))
  | PyDict d => Returned (Z.of_nat (length d))
  | PyStr s => Returned (len s)
  | _ => Raised TypeError
  end.

(** [str(z)] for an integer: its decimal numeral. *)
Definition repr_int (z : Z) : str :=
  lit (NilZero.string_of_int (Z.to_int z)).

(** ** The SQLite store *)

(** The five TEXT columns of a row of [users]; [None] is NULL. *)
Record fields := Fields {
  name : option str;
  username : option str;
  email : option str;
  phone : option str;
  website : option str
}.

(** The table [users]: [id INTEGER PRIMARY KEY] is the key of the map. *)
Abbreviation table := (gmap Z fields).

(** The content of the file [usuarios_dashboard.db]: the table is absent
    (also when the file does not exist yet) or present. *)
Abbreviation database := (option table).

(** A value once bound as a statement parameter. *)
Inductive sqlval :=
| SqlNull
| SqlInt (z : Z)
| SqlText (s : str).

Definition is_surrogate (c : codepoint) : bool :=
  N.leb 55296 c && N.leb c 57343.

Definition int64_min : Z := - 2 ^ 63.
Definition int64_max : Z := 2 ^ 63 - 1.

(** How [sqlite3] binds a Python value to a [?] placeholder. *)
Definition adapt (v : pyval) : outcome sqlval :=
  match v with
  | PyNone => Returned SqlNull
  | PyBool b => Returned (SqlInt (if b then 1 else 0))
  | PyInt z =>
      if (int64_min <=? z) && (z <=? int64_max) then Returned (SqlInt z)
      else Raised OverflowError
  | PyStr s =>
      if existsb is_surrogate s then Raised UnicodeEncodeError
      else Returned (SqlText s)
  | PyList _ | PyDict _ => Raised BindingError
  end.

(** TEXT affinity: what a TEXT column stores for a bound value. *)
Definition text_column (v : sqlval) : option str :=
  match v with
  | SqlNull => None
  | SqlInt z => Some (repr_int z)
  | SqlText s => Some s
  end.

(** The order of the rows of a table scan: by primary key. *)
Definition by_rowid (a b : Z * fields) : Prop := fst a <= fst b.

#[global] Instance by_rowid_dec : RelDecision by_rowid :=
  fun a b => decide (fst a <= fst b).

(** [SELECT * FROM users]: the rows by ascending primary key. *)
Definition select_all (t : table) : list (Z * fields) :=
  merge_sort by_rowid (map_to_list t).

Definition max_rowid (ids : list Z) : option Z :=
  match ids with
  | [] => None
  | z :: ids' => Some (fold_right Z.max z ids')
  end.

Section Store.
Context {RT : Runtime}.

(** The row id of a row inserted with a NULL primary key: 1 in an empty
    table, else one more than the largest id in use. *)
Definition new_rowid (t : table) : outcome Z :=
  let ids := map fst (select_all t) in
  match max_rowid ids with
  | None => Returned 1
  | Some m =>
      if m <? int64_max then Returned (m + 1)
      else match random_rowid ids with
           | Some z => Returned z
           | None => Raised DatabaseFull
           end
  end.

(** The key of the row to write, from the value bound to [id]. *)
Definition rowid_column (v : sqlval) (t : table) : outcome Z :=
  match v with
  | SqlNull => new_rowid t
  | SqlInt z => Returned z
  | SqlText s =>
      match rowid_of_text s with
      | Some z => Returned z
      | None => Raised DatatypeMismatch
      end
  end.

End Store.

(** ** Connections and the monad of a function body *)

(** The file and the open transaction of the connection, if any: the
    working copy the connection sees until it commits. A connection that
    is closed or dropped without a commit loses its working copy. *)
Record world := World {
  disk : database;
  pending : option database
}.

Definition visible (w : world) : database := default (disk w) (pending w).

Definition M (A : Type) : Type := world -> outcome A * world.

Definition ret {A} (a : A) : M A := fun w => (Returned a, w).
Definition raise {A} (e : exn) : M A := fun w => (Raised e, w).
Definition bind {A B} (m : M A) (k : A -> M B) : M B :=
  fun w => match m w with
           | (Returned a, w') => k a w'
           | (Raised e, w') => (Raised e, w')
           end.
Definition lift {A} (o : outcome A) : M A := fun w => (o, w).

Notation "x <- m ;; k" := (bind m (fun x => k))
  (at level 100, m at next level, right associativity).
Notation "m ;;; k" := (bind m (fun _ => k))
  (at level 100, right associativity).

(** [for x in l: body(x)] *)
Fixpoint for_each {A} (body : A -> M unit) (l : list A) : M unit :=
  match l with
  | [] => ret tt
  | x :: l' => body x ;;; for_each body l'
  end.

(** A statement that changes the schema runs outside any transaction the
    module would open: it is written through at once unless a transaction
    is already open. *)
Definition write_ddl (db : database) : M unit :=
  fun w => match pending w with
           | Some _ => (Returned tt, World (disk w) (Some db))
           | None => (Returned tt, World db None)
           end.

(** A statement that changes rows opens a transaction first. *)
Definition write_dml (db : database) : M unit :=
  fun w => (Returned tt, World (disk w) (Some db)).

Definition read_db : M database := fun w => (Returned (visible w), w).

(** [sqlite3.connect(DB_NAME)]: a new connection, no transaction open; a
    missing file is created without any table. *)
Definition sqlite3_connect : M unit :=
  fun w => (Returned tt, World (disk w) None).

(** [conn.commit()] *)
Definition conn_commit : M unit :=
  fun w => (Returned tt, World (visible w) None).

(** [conn.close()]: an open transaction is rolled back. *)
Definition conn_close : M unit :=
  fun w => (Returned tt, World (disk w) None).

(** [DROP TABLE IF EXISTS users;] *)
Definition execute_drop_table : M unit := write_ddl None.

(** [CREATE TABLE IF NOT EXISTS users (...)] *)
Definition execute_create_table : M unit :=
  db <- read_db ;;
  match db with
  | Some _ => ret tt
  | None => write_ddl (Some ∅)
  end.

(** The implicit [BEGIN] before a statement that changes rows. *)
Definition begin_transaction : M unit :=
  fun w => (Returned tt, World (disk w) (Some (visible w))).

(** [pd.read_sql_query('SELECT * FROM users', conn)] *)
Definition read_sql_query : M (list (Z * fields)) :=
  db <- read_db ;;
  match db with
  | None => raise NoSuchTable
  | Some t => ret (select_all t)
  end.

(** The file once the function has returned or raised: a connection left
    open is dropped and its transaction with it. *)
Definition persisted (w : world) : database := disk w.

(** ** Streamlit output *)

Inductive st_message :=
| st_error_api (status_code : Z)
    (* [st.error(f'Error al consumir la API ({response.status_code})')] *)
| st_error_exception (e : exn).
    (* [st.error(f'... Error: {str(e)}')] *)

(** ** The remote endpoint *)

(** The response of [requests.get(API_URL, timeout=20)]: its status code
    and what [response.json()] does. *)
Record response := Response {
  status_code : Z;
  json : outcome pyval
}.

(** ** The data frame *)

(** A row of the frame [load_data] returns: the six columns of the table
    and the two derived ones. *)
Record frame_row := FrameRow {
  row_id : Z;
  row_fields : fields;
  name_length : Z;
  email_domain : option str
}.

Abbreviation DataFrame := (list frame_row).

(** [df[c]] for a column read through [c]. *)
Definition column {A} (c : fields -> A) (df : list (Z * fields)) : list A :=
  map (fun r => c (snd r)) df.

(** [df['name_length'] = nl; df['email_domain'] = ed]: the two new columns
    beside the old ones, row by row. *)
Fixpoint assign (df : list (Z * fields)) (nl : list Z) (ed : list (option str))
  : DataFrame :=
  match df, nl, ed with
  | (i, f) :: df', n :: nl', d :: ed' => FrameRow i f n d :: assign df' nl' ed'
  | _, _, _ => []
  end.

Section App.
Context {RT : Runtime}.

(** [cur.execute('INSERT OR REPLACE INTO users (...) VALUES (?, ?, ?, ?, ?, ?)',
    (id, name, username, email, phone, website))]: the statement is
    prepared against the table, the transaction opened, the parameters
    bound in order, and the row written under its key, replacing a row
    that has the key already. *)
Definition execute_insert_or_replace
    (p_id p_name p_username p_email p_phone p_website : pyval) : M unit :=
  db <- read_db ;;
  match db with
  | None => raise NoSuchTable
  | Some t =>
      begin_transaction ;;;
      v_id <- lift (adapt p_id) ;;
      v_name <- lift (adapt p_name) ;;
      v_username <- lift (adapt p_username) ;;
      v_email <- lift (adapt p_email) ;;
      v_phone <- lift (adapt p_phone) ;;
      v_website <- lift (adapt p_website) ;;
      key <- lift (rowid_column v_id t) ;;
      write_dml (Some (<[key := Fields (text_column v_name)
                                        (text_column v_username)
                                        (text_column v_email)
                                        (text_column v_phone)
                                        (text_column v_website)]> t))
  end.

(** The body of the [for u in users] loop. *)
Definition store_user (u : pyval) : M unit :=
  p_id <- lift (py_get u (lit "id")) ;;
  p_name <- lift (py_get u (lit "name")) ;;
  p_username <- lift (py_get u (lit "username")) ;;
  p_email <- lift (py_get u (lit "email")) ;;
  p_phone <- lift (py_get u (lit "phone")) ;;
  p_website <- lift (py_get u (lit "website")) ;;
  execute_insert_or_replace p_id p_name p_username p_email p_phone p_website.

(** The [try] block of [fetch_and_store_data]: the value returned and the
    messages shown. [http] is what [requests.get] does. *)
Definition fetch_try (http : outcome response) : M (option Z * list st_message) :=
  response <- lift http ;;
  if negb (status_code response =? 200) then
    ret (None, [st_error_api (status_code response)])
  else
    users <- lift (json response) ;;
    sqlite3_connect ;;;
    execute_drop_table ;;;
    execute_create_table ;;;
    us <- lift (py_iter users) ;;
    for_each store_user us ;;;
    conn_commit ;;;
    conn_close ;;;
    n <- lift (py_len users) ;;
    ret (Some n, []).

(** [fetch_and_store_data()], run on the file [db]: the value returned,
    the messages shown and the file afterwards. *)
Definition fetch_and_store_data (http : outcome response) (db : database)
  : option Z * list st_message * database :=
  match fetch_try http (World db None) with
  | (Returned r, w) => (r, persisted w)
  | (Raised e, w) => ((None, [st_error_exception e]), persisted w)
  end.

(** The body of [load_data]. *)
Definition load_body : M DataFrame :=
  sqlite3_connect ;;;
  df <- read_sql_query ;;
  conn_close ;;;
  let nl := map len (map astype_str (column name df)) in
  let ed := map email_domain_of (map astype_str (column email df)) in
  ret (assign df nl ed).

(** [load_data()], run on the file [db]: the frame returned or the
    exception raised, and the file afterwards. *)
Definition load_data (db : database) : outcome DataFrame * database :=
  match load_body (World db None) with
  | (r, w) => (r, persisted w)
  end.

End App.

(** ** Vocabulary of the specification *)

Section Vocabulary.
Context {RT : Runtime}.

(** The frame row of a snapshot row: the two column assignments of
    [load_data] read row by row. *)
Definition derive (r : Z * fields) : frame_row :=
  FrameRow (fst r) (snd r)
           (len (astype_str (name (snd r))))
           (email_domain_of (astype_str (email (snd r)))).

End Vocabulary.

(** The text a fetched record carries under [k]: [None] when the key is
    missing or null. *)
Definition text_of (u : pyval) (k : str) : option str :=
  match py_get u k with
  | Returned (PyStr s) => Some s
  | _ => None
  end.

(** The [id] of a fetched record, when it is an integer. *)
Definition user_id (u : pyval) : option Z :=
  match py_get u (lit "id") with
  | Returned (PyInt z) => Some z
  | _ => None
  end.

(** The five text fields of a fetched record. *)
Definition record_fields (u : pyval) : fields :=
  Fields (text_of u (lit "name")) (text_of u (lit "username"))
         (text_of u (lit "email")) (text_of u (lit "phone"))
         (text_of u (lit "website")).

(** A fetched record as a row: its id and its text fields. *)
Definition record_row (u : pyval) : Z * fields :=
  (default 0 (user_id u), record_fields u).

(** A free-text field: a string of Unicode text (no lone surrogate),
    null, or missing. *)
Definition well_formed_text (d : list (str * pyval)) (k : str) : bool :=
  match dict_lookup k d with
  | None | Some PyNone => true
  | Some (PyStr s) => negb (existsb is_surrogate s)
  | Some _ => false
  end.

(** A well-formed User record: an object whose [id] is an integer of
    SQLite's INTEGER type and whose other fields are free text. *)
Definition well_formed_user (u : pyval) : bool :=
  match u with
  | PyDict d =>
      match dict_lookup (lit "id") d with
      | Some (PyInt z) => (int64_min <=? z) && (z <=? int64_max)
      | _ => false
      end
      && forallb (well_formed_text d)
           [lit "name"; lit "username"; lit "email"; lit "phone"; lit "website"]
  | _ => false
  end.

(** The ids of a collection, in fetch order. *)
Definition ids_of (users : list pyval) : list Z :=
  map (fun u => fst (record_row u)) users.

(** A well-formed collection: well-formed records with unique ids. *)
Definition well_formed_users (users : list pyval) : Prop :=
  Forall (fun u => well_formed_user u = true) users /\ NoDup (ids_of users).

(** The fields of the last row of [rows] whose id is [z]. *)
Fixpoint last_with_id (z : Z) (rows : list (Z * fields)) : option fields :=
  match rows with
  | [] => None
  | (k, f) :: rows' =>
      match last_with_id z rows' with
      | Some f' => Some f'
      | None => if decide (k = z) then Some f else None
      end
  end.

(** The table after the rows of [users] have been written in order over
    [t], each under its id. *)
Definition store_all (t : table) (users : list pyval) : table :=
  fold_left (fun t u => <[fst (record_row u) := snd (record_row u)]> t) users t.

(** A successful response carrying [users]. *)
Definition ok_response (users : list pyval) : outcome response :=
  Returned (Response 200 (Returned (PyList users))).

(** ** Sample data *)

(** A run time that knows ASCII only. *)
Definition ascii_runtime : Runtime :=
  {| unicode_lower := map ascii_lower;
     rowid_of_text := fun _ => None;
     random_rowid := fun _ => None;
     os_linesep_crlf := false;
     csv_quotes_newlines := false |}.

Definition sample_user (i : Z) (n e : string) : pyval :=
  PyDict [(lit "id", PyInt i); (lit "name", PyStr (lit n));
          (lit "username", PyNone); (lit "email", PyStr (lit e))].

Definition sample_fields (n e : string) : fields :=
  Fields (Some (lit n)) None (Some (lit e)) None None.

Definition leanne : pyval := sample_user 1 "Leanne Graham" "a.b@Example.COM".
Definition ervin : pyval := sample_user 2 "Ervin Howell" "user@".
Definition ervin' : pyval := sample_user 2 "Ervin H." "shanna.example".

Definition sample_table : table :=
  {[ 1 := sample_fields "Leanne Graham" "a.b@Example.COM";
     2 := sample_fields "Ervin Howell" "user@";
     3 := Fields None None None None None ]}.

(** ** The CSV export *)

Definition comma : codepoint := 44%N.
Definition quotechar : codepoint := 34%N.
Definition LF : codepoint := 10%N.
Definition CR : codepoint := 13%N.

(** The (id, name, email, name_length, email_domain) tuple of a row. *)
Definition view_tuple (r : frame_row)
  : Z * option str * option str * Z * option str :=
  (row_id r, name (row_fields r), email (row_fields r),
   name_length r, email_domain r).

(** A tuple with its null values in the format of the export: the empty
    text. *)
Definition null_formatted (t : Z * option str * option str * Z * option str)
  : Z * str * str * Z * str :=
  match t with
  | (i, n, e, l, d) => (i, default [] n, default [] e, l, default [] d)
  end.

Section Csv.
Context {RT : Runtime}.

(** The line terminator [DataFrame.to_csv] hands to the writer. *)
Definition lineterminator : str :=
  if os_linesep_crlf then [CR; LF] else [LF].

(** The characters that make the writer quote a field (QUOTE_MINIMAL). *)
Definition needs_quotes (c : codepoint) : bool :=
  N.eqb c comma || N.eqb c quotechar || contains c lineterminator
  || (csv_quotes_newlines && (N.eqb c CR || N.eqb c LF)).

(** Every quote character of a quoted field is written twice. *)
Fixpoint double_quotes (f : str) : str :=
  match f with
  | [] => []
  | c :: f' =>
      if N.eqb c quotechar then quotechar :: quotechar :: double_quotes f'
      else c :: double_quotes f'
  end.

Definition write_field (f : str) : str :=
  if existsb needs_quotes f then quotechar :: double_quotes f ++ [quotechar]
  else f.

Fixpoint join_fields (fs : list str) : str :=
  match fs with
  | [] => []
  | [f] => f
  | f :: fs' => f ++ comma :: join_fields fs'
  end.

(** [writer.writerow(fs)]; a row that is one empty field is written as an
    empty quoted field. *)
Definition writerow (fs : list str) : str :=
  match fs with
  | [[]] => [quotechar; quotechar]
  | _ => join_fields (map write_field fs)
  end ++ lineterminator.

(** A cell of an object column: a missing value is written as [na_rep],
    the empty text. *)
Definition csv_cell (o : option str) : str := default [] o.

Definition csv_header : list str :=
  [lit "id"; lit "name"; lit "username"; lit "email"; lit "phone";
   lit "website"; lit "name_length"; lit "email_domain"].

Definition csv_values (r : frame_row) : list str :=
  [repr_int (row_id r);
   csv_cell (name (row_fields r)); csv_cell (username (row_fields r));
   csv_cell (email (row_fields r)); csv_cell (phone (row_fields r));
   csv_cell (website (row_fields r));
   repr_int (name_length r); csv_cell (email_domain r)].

(** [df.to_csv(index=False)]: the header row, then one row per frame row. *)
Definition to_csv (df : DataFrame) : str :=
  writerow csv_header ++ concat (map (fun r => writerow (csv_values r)) df).

(** Modelled from the spec: the re-parsing of the exported text, for which
    the repository has no code. A reader for the dialect of the writer
    (comma, double quote, doubled quotes, the platform's line terminator)
    that keeps every field as text, then skips the header and reads [id]
    and [name_length] back as integers. These are the modes of the
    reader. *)
Inductive reader_mode := AtStart | InUnquoted | InQuoted | QuoteSeen.

(** Modelled from the spec: the state of the reader of the exported text
    (the repository has none): its mode, the field, the record and the
    records read so far. *)
Record reader := Reader {
  mode : reader_mode;
  cur_field : str;                (* newest character first *)
  cur_record : list str;          (* newest field first *)
  done_records : list (list str)  (* newest record first *)
}.

(** Modelled from the spec: the moves of the reader of the exported text
    (the repository has none): a character joins the field, the mode
    changes, the field ends, the record ends. *)
Definition add_char (c : codepoint) (m : reader_mode) (st : reader) : reader :=
  Reader m (c :: cur_field st) (cur_record st) (done_records st).

Definition set_mode (m : reader_mode) (st : reader) : reader :=
  Reader m (cur_field st) (cur_record st) (done_records st).

Definition end_field (st : reader) : reader :=
  Reader AtStart [] (rev (cur_field st) :: cur_record st) (done_records st).

Definition end_record (st : reader) : reader :=
  Reader AtStart [] []
         (rev (rev (cur_field st) :: cur_record st) :: done_records st).

(** Modelled from the spec: a step of the reader of the exported text
    (the repository has none). Outside quotes a comma ends the field, a
    line feed ends the record, the carriage return of a two-character
    terminator is passed over; inside quotes a doubled quote is one
    quote. *)
Definition step_outside (st : reader) (c : codepoint) : reader :=
  if N.eqb c comma then end_field st
  else if N.eqb c LF then end_record st
  else if N.eqb c CR && os_linesep_crlf then st
  else add_char c InUnquoted st.

Definition step (st : reader) (c : codepoint) : reader :=
  match mode st with
  | AtStart =>
      if N.eqb c quotechar then set_mode InQuoted st else step_outside st c
  | InUnquoted => step_outside st c
  | InQuoted =>
      if N.eqb c quotechar then set_mode QuoteSeen st
      else add_char c InQuoted st
  | QuoteSeen =>
      if N.eqb c quotechar then add_char c InQuoted st else step_outside st c
  end.

(** Modelled from the spec: the reader of the exported text (the
    repository has none) holds the field [f] and waits for a separator. *)
Definition holding (f : str) (rec : list str) (dn : list (list str))
    (st : reader) : Prop :=
  exists m, st = Reader m (rev f) rec dn /\ m <> InQuoted.

(** Modelled from the spec: the records the reader of the exported text
    (the repository has none) finds in [text]. *)
Definition read_records (text : str) : list (list str) :=
  rev (done_records (fold_left step text (Reader AtStart [] [] []))).

(** Modelled from the spec: the integer a decimal numeral of the exported
    text denotes, for its re-parsing (the repository has no reader). *)
Definition parse_int (s : str) : option Z :=
  if forallb is_ascii s then
    option_map Z.of_int
      (NilZero.int_of_string (string_of_list_ascii (map ascii_of_N s)))
  else None.

(** Modelled from the spec: the (id, name, email, name_length,
    email_domain) tuple of a record of eight fields, for the re-parsing of
    the exported text (the repository has no reader). *)
Definition read_tuple (fs : list str) : option (Z * str * str * Z * str) :=
  match fs with
  | [f_id; f_name; _; f_email; _; _; f_len; f_dom] =>
      match parse_int f_id, parse_int f_len with
      | Some i, Some l => Some (i, f_name, f_email, l, f_dom)
      | _, _ => None
      end
  | _ => None
  end.

Fixpoint read_tuples (rs : list (list str))
  : option (list (Z * str * str * Z * str)) :=
  match rs with
  | [] => Some []
  | r :: rs' =>
      match read_tuple r, read_tuples rs' with
      | Some t, Some ts => Some (t :: ts)
      | _, _ => None
      end
  end.

(** Modelled from the spec: the re-parsing of the exported text (the
    repository has no reader): the tuples of the records after the
    header. *)
Definition read_csv (text : str) : option (list (Z * str * str * Z * str)) :=
  match read_records text with
  | [] => None
  | _ :: rs => read_tuples rs
  end.

End Csv.

(** ** Records without an id *)

(** A record whose [id] is missing or null and whose other fields are
    free text. *)
Definition anonymous_user (u : pyval) : bool :=
  match u with
  | PyDict d =>
      match dict_lookup (lit "id") d with
      | None | Some PyNone => true
      | Some _ => false
      end
      && forallb (well_formed_text d)
           [lit "name"; lit "username"; lit "email"; lit "phone"; lit "website"]
  | _ => false
  end.

(** The keys of the table are 1, ..., [k]. *)
Definition numbered (k : Z) (t : table) : Prop :=
  forall z, is_Some (t !! z) <-> 1 <= z <= k.

(** ** Memoization and the refresh button *)

(** What [st.cache_data] holds for the two decorated functions, neither of
    which takes an argument: for [fetch_and_store_data] the value returned
    and the messages shown by the run that was stored, for [load_data] the
    frame returned. *)
Record caches := Caches {
  fetch_entry : option (option Z * list st_message);
  load_entry : option DataFrame
}.

(** The database file and the caches of the running application. *)
Record app_state := App {
  file : database;
  memo : caches
}.

(** What the page shows during a run of the script. *)
Inductive ui_event :=
| st_show (m : st_message)       (* an [st.error] of a decorated function *)
| st_success (n : Z)             (* [st.success(f'... {result} usuarios ...')] *)
| st_rerun.                      (* [st.rerun()] *)

(** [if result:] on what [fetch_and_store_data] returns: [None] and [0]
    are false. *)
Definition truthy (result : option Z) : bool :=
  match result with
  | Some n => negb (n =? 0)
  | None => false
  end.

(** The entry stored for [fetch_and_store_data], if any, holds [None] or
    [0]. *)
Definition no_truthy_entry (a : caches) : Prop :=
  match fetch_entry a with
  | Some (result, _) => truthy result = false
  | None => True
  end.

(** [st.cache_data.clear()] *)
Definition cache_data_clear (a : app_state) : app_state :=
  App (file a) (Caches None None).

Section Memo.
Context {RT : Runtime}.

(** [@st.cache_data(ttl=3600) def fetch_and_store_data()]: a stored entry
    that has not outlived the hour is returned and its messages are shown
    again, without running the body; else the body runs and what it
    returns and shows is stored. [expired] tells whether an hour has
    passed since the entry was stored, [http] what [requests.get] does if
    it is called. *)
Definition cached_fetch (expired : bool) (http : outcome response) (a : app_state)
  : option Z * list st_message * app_state :=
  match fetch_entry (memo a), expired with
  | Some (result, msgs), false => (result, msgs, a)
  | _, _ =>
      match fetch_and_store_data http (file a) with
      | (result, msgs, db) =>
          (result, msgs,
           App db (Caches (Some (result, msgs)) (load_entry (memo a))))
      end
  end.

(** [@st.cache_data def load_data()]: a stored frame is returned without
    reading the file; else the body runs, and the frame is stored unless
    the body raises. *)
Definition cached_load (a : app_state) : outcome DataFrame * app_state :=
  match load_entry (memo a) with
  | Some df => (Returned df, a)
  | None =>
      match load_data (file a) with
      | (Returned df, db) =>
          (Returned df, App db (Caches (fetch_entry (memo a)) (Some df)))
      | (Raised e, db) => (Raised e, App db (memo a))
      end
  end.

(** The handler of the refresh button in the sidebar of [main]. After
    [st.rerun()] the script starts again from the top. *)
Definition refresh_button (expired : bool) (http : outcome response) (a : app_state)
  : list ui_event * app_state :=
  match cached_fetch expired http a with
  | (result, msgs, a') =>
      if truthy result then
        (map st_show msgs ++ [st_success (default 0 result); st_rerun],
         cache_data_clear a')
      else (map st_show msgs, a')
  end.

End Memo.

(** ** The figures of the page *)

(** [len(df)] *)
Definition total_users (df : DataFrame) : Z := Z.of_nat (length df).

(** The values of a column that are not null. *)
Definition dropna (col : list (option str)) : list str :=
  omap (fun v => v) col.

(** The number of cells of [col] equal to [k]. *)
Definition occurrences (k : str) (col : list str) : Z :=
  Z.of_nat (length (filter (fun v => v = k) col)).

(** [Series.nunique()]: the number of distinct values that are not null. *)
Definition nunique (col : list (option str)) : Z :=
  Z.of_nat (length (remove_dups (dropna col))).

(** [Series.max()] of an integer column; [None] is the NaN of an empty
    column. *)
Definition series_max (col : list Z) : option Z :=
  match col with
  | [] => None
  | z :: col' => Some (fold_right Z.max z col')
  end.

(** Larger counts first. *)
Definition by_count_desc (a b : str * Z) : Prop := snd b <= snd a.

(** The sort pandas applies to counts: the order it gives to equal counts
    is not fixed, so the sort is known by its two laws only. *)
Class Pandas := {
  sort_values_desc : list (str * Z) -> list (str * Z);
  sort_values_desc_perm : forall l, sort_values_desc l ≡ₚ l;
  sort_values_desc_sorted :
    forall l, StronglySorted by_count_desc (sort_values_desc l)
}.

(** [Series.value_counts()] before the sort: each value that is not null
    with the number of cells holding it. The order of this list means
    nothing: the sort that follows decides the order of the result, and
    pandas' own order among equal counts is not the one of this list. *)
Definition counts (col : list (option str)) : list (str * Z) :=
  map (fun k => (k, occurrences k (dropna col))) (remove_dups (dropna col)).

(** The sum of the [count] column. *)
Definition sum_counts (l : list (str * Z)) : Z :=
  fold_right Z.add 0 (map snd l).

(** The number of rows whose [email_domain] is [v]. *)
Definition rows_with_domain (v : option str) (df : DataFrame) : Z :=
  Z.of_nat (length (filter (fun r => email_domain r = v) df)).

Section Figures.
Context {PD : Pandas}.

(** [Series.value_counts()] *)
Definition value_counts (col : list (option str)) : list (str * Z) :=
  sort_values_desc (counts col).

(** [dom_counts = df['email_domain'].value_counts().reset_index()] with its
    two columns named [email_domain] and [count], as [create_bar_chart]
    and [create_donut_chart] build it. *)
Definition dom_counts (df : DataFrame) : list (str * Z) :=
  value_counts (map email_domain df).

End Figures.

(** The three metrics at the top of the page: [len(df)],
    [df['email_domain'].nunique()] and [df['name_length'].max()]. *)
Definition metrics (df : DataFrame) : Z * Z * option Z :=
  (total_users df, nunique (map email_domain df),
   series_max (map name_length df)).

#[global] Instance by_count_desc_dec : RelDecision by_count_desc :=
  fun a b => decide (snd b <= snd a).

#[global] Instance by_count_desc_trans : Transitive by_count_desc :=
  fun a b c Hab Hbc => Z.le_trans _ _ _ Hbc Hab.

#[global] Instance by_count_desc_total : Total by_count_desc :=
  fun a b => Z.le_ge_cases (snd b) (snd a).

(** A sort that keeps equal counts in their order. *)
Definition stable_pandas : Pandas :=
  {| sort_values_desc := merge_sort by_count_desc;
     sort_values_desc_perm := merge_sort_Permutation by_count_desc;
     sort_values_desc_sorted := StronglySorted_merge_sort by_count_desc |}.

(** An application whose table and caches come from an earlier page view
    of the sample table. *)
Definition sample_frame : DataFrame :=
  map (derive (RT := ascii_runtime)) (select_all sample_table).

Definition sample_app : app_state :=
  App (Some sample_table) (Caches None (Some sample_frame)).

(** A record without an id, and the fields of a record whose id is one
    past the largest integer SQLite stores. *)
Definition nameless (n : string) : pyval :=
  PyDict [(lit "name", PyStr (lit n)); (lit "id", PyNone)].


Definition server_error : outcome response :=
  Returned (Response 500 (Raised JSONDecodeError)).

(** ** The loader as the page calls it *)




Section DecoratedLoad.
Context {RT : Runtime}.


End DecoratedLoad.




(** * Properties *)

(** ** Strings *)

Lemma split_not_nil sep s : split sep s <> [].
Proof.
  destruct s as [|c s]; simpl; [discriminate|].
  destruct (N.eqb c sep); [discriminate|].
  destruct (split sep s); discriminate.
Qed.

Lemma contains_false_notin c s : contains c s = false <-> ~ In c s.
Proof.
  unfold contains. induction s as [|x s IH]; simpl.
  - split; [intros _ []|reflexivity].
  - rewrite orb_false_iff, IH, N.eqb_neq. intuition congruence.
Qed.

Lemma contains_true_in c s : contains c s = true <-> In c s.
Proof.
  destruct (contains c s) eqn:E.
  - split; [intros _|reflexivity].
    destruct (in_dec N.eq_dec c s) as [H|H]; [exact H|].
    apply contains_false_notin in H. congruence.
  - apply contains_false_notin in E. split; [discriminate|contradiction].
Qed.

(** A string without the separator is its own single piece. *)
Lemma split_no_sep sep s : ~ In sep s -> split sep s = [s].
Proof.
  induction s as [|c s IH]; simpl; intros H; [reflexivity|].
  destruct (N.eqb_spec c sep) as [->|Hne]; [tauto|].
  rewrite IH by tauto. reflexivity.
Qed.

(** Past an occurrence of the separator, the pieces are those of the rest. *)
Lemma split_app_sep sep pre suf :
  exists w ws, split sep (pre ++ sep :: suf) = (w :: ws) ++ split sep suf.
Proof.
  induction pre as [|c pre (w & ws & IH)]; simpl.
  - rewrite N.eqb_refl. exists [], []. reflexivity.
  - rewrite IH. destruct (N.eqb c sep).
    + exists [], (w :: ws). reflexivity.
    + exists (c :: w), ws. reflexivity.
Qed.

Lemma item_last_app l1 l2 : l2 <> [] -> item_last (l1 ++ l2) = item_last l2.
Proof.
  unfold item_last. intros H. induction l1 as [|x l1 IH]; simpl; [reflexivity|].
  rewrite <- IH. destruct (l1 ++ l2) eqn:E; [|reflexivity].
  apply app_eq_nil in E. tauto.
Qed.

(** [s.split(sep)[-1]] is what follows the last separator. *)
Lemma item_last_split sep pre suf :
  ~ In sep suf -> item_last (split sep (pre ++ sep :: suf)) = suf.
Proof.
  intros H. destruct (split_app_sep sep pre suf) as (w & ws & ->).
  rewrite item_last_app by apply split_not_nil.
  rewrite split_no_sep by exact H. reflexivity.
Qed.

Section LoadProperties.
Context {RT : Runtime}.

Lemma lower_nil : lower [] = [].
Proof. reflexivity. Qed.

Lemma email_domain_of_at pre suf :
  ~ In at_sign suf ->
  email_domain_of (pre ++ at_sign :: suf) = Some (lower suf).
Proof.
  intros H. unfold email_domain_of.
  replace (contains at_sign (pre ++ at_sign :: suf)) with true.
  - rewrite item_last_split by exact H. reflexivity.
  - symmetry. apply contains_true_in, in_or_app. right. left. reflexivity.
Qed.

Lemma email_domain_of_no_at x :
  ~ In at_sign x -> email_domain_of x = None.
Proof.
  intros H. unfold email_domain_of.
  apply contains_false_notin in H. rewrite H. reflexivity.
Qed.

Lemma email_domain_of_None_iff x :
  email_domain_of x = None <-> ~ In at_sign x.
Proof.
  split; [|apply email_domain_of_no_at].
  unfold email_domain_of. destruct (contains at_sign x) eqn:E; [discriminate|].
  intros _. apply contains_false_notin, E.
Qed.

(** ** The loader *)

Lemma assign_derive df :
  assign df (map len (map astype_str (column name df)))
            (map email_domain_of (map astype_str (column email df)))
  = map derive df.
Proof.
  induction df as [|[i f] df IH]; simpl; [reflexivity|].
  rewrite IH. reflexivity.
Qed.

Lemma load_data_present (t : table) :
  load_data (Some t) = (Returned (map derive (select_all t)), Some t).
Proof.
  unfold load_data, load_body. cbn. rewrite assign_derive. reflexivity.
Qed.

Lemma load_data_absent : load_data None = (Raised NoSuchTable, None).
Proof. reflexivity. Qed.

(** The rows of a loaded frame are the derived rows of the snapshot. *)
Lemma load_data_rows db df db' r :
  load_data db = (Returned df, db') -> In r df ->
  exists t i f, db = Some t /\ t !! i = Some f /\ r = derive (i, f).
Proof.
  destruct db as [t|]; [|rewrite load_data_absent; discriminate].
  rewrite load_data_present. intros [= <- <-] Hr.
  apply in_map_iff in Hr as ([i f] & <- & Hin).
  exists t, i, f. split; [reflexivity|]. split; [|reflexivity].
  apply elem_of_map_to_list. apply list_elem_of_In in Hin.
  unfold select_all in Hin. rewrite merge_sort_Permutation in Hin. exact Hin.
Qed.

(** C4: loading when the table [users] does not exist fails with the
    no-data error ([no such table: users]) and leaves the file as it was;
    and whenever the loader fails at all, that error is the one raised. *)
Theorem load_data_no_table :
  load_data None = (Raised NoSuchTable, None) /\
  (forall db e, fst (load_data db) = Raised e -> e = NoSuchTable /\ db = None).
Proof.
  split; [reflexivity|].
  intros [t|] e; [rewrite load_data_present; discriminate|].
  rewrite load_data_absent. intros [= <-]. split; reflexivity.
Qed.

(** C5: in every row of a loaded frame, [email_domain] is the part of
    [email] after its last ['@'], lower-cased, and it is null when [email]
    is missing or has no ['@']; ["a.b@Example.COM"] gives ["example.com"]. *)
Theorem email_domain_spec db df db' r :
  load_data db = (Returned df, db') -> In r df ->
  (forall pre suf,
      email (row_fields r) = Some (pre ++ at_sign :: suf) ->
      ~ In at_sign suf -> email_domain r = Some (lower suf)) /\
  (email (row_fields r) = None -> email_domain r = None) /\
  (forall e, email (row_fields r) = Some e -> ~ In at_sign e ->
             email_domain r = None) /\
  (email (row_fields r) = Some (lit "a.b@Example.COM") ->
   email_domain r = Some (lit "example.com")).
Proof.
  intros Hload Hr.
  destruct (load_data_rows _ _ _ _ Hload Hr) as (t & i & f & _ & _ & ->).
  cbn. repeat split.
  - intros pre suf -> Hsuf. apply email_domain_of_at, Hsuf.
  - intros ->. reflexivity.
  - intros e -> He. apply email_domain_of_no_at, He.
  - intros ->. reflexivity.
Qed.

(** C6: in every row of a loaded frame, [name_length] is the number of
    characters of [name]; a missing name counts as the four characters
    of ["None"]; ["Leanne Graham"] gives 13. *)
Theorem name_length_spec db df db' r :
  load_data db = (Returned df, db') -> In r df ->
  (forall n, name (row_fields r) = Some n ->
             name_length r = Z.of_nat (length n)) /\
  (name (row_fields r) = None ->
   name_length r = Z.of_nat (length (lit "None")) /\ name_length r = 4) /\
  (name (row_fields r) = Some (lit "Leanne Graham") -> name_length r = 13).
Proof.
  intros Hload Hr.
  destruct (load_data_rows _ _ _ _ Hload Hr) as (t & i & f & _ & _ & ->).
  cbn. split; [|split].
  - intros n ->. reflexivity.
  - intros ->. split; reflexivity.
  - intros ->. reflexivity.
Qed.


(** C10: an [email] that ends in ['@'] has the empty string as
    [email_domain], not null; null is the result exactly when [email] is
    missing or has no ['@']. *)
Theorem email_domain_trailing_at db df db' r :
  load_data db = (Returned df, db') -> In r df ->
  (forall pre, email (row_fields r) = Some (pre ++ [at_sign]) ->
               email_domain r = Some []) /\
  (email (row_fields r) = Some (lit "user@") ->
   email_domain r = Some (lit "")) /\
  (email_domain r = None <->
   email (row_fields r) = None \/
   exists e, email (row_fields r) = Some e /\ ~ In at_sign e).
Proof.
  intros Hload Hr.
  destruct (load_data_rows _ _ _ _ Hload Hr) as (t & i & f & _ & _ & ->).
  cbn. repeat split.
  - intros pre ->. cbn. rewrite email_domain_of_at by (intros []).
    reflexivity.
  - intros ->. reflexivity.
  - destruct (email f) as [e|]; [|auto]. cbn.
    rewrite email_domain_of_None_iff. intros H. right. exists e. auto.
  - intros [->|(e & -> & He)]; [reflexivity|].
    cbn. apply email_domain_of_no_at, He.
Qed.

End LoadProperties.

(** ** The refresh pipeline *)

Section FetchProperties.
Context {RT : Runtime}.

#[local] Arguments lit : simpl never.

Lemma adapt_well_formed_text d k :
  well_formed_text d k = true ->
  exists sv, adapt (default PyNone (dict_lookup k d)) = Returned sv /\
             text_column sv = text_of (PyDict d) k.
Proof.
  unfold well_formed_text, text_of, py_get.
  destruct (dict_lookup k d) as [[| | |s| |]|]; cbn; try discriminate.
  - intros _. exists SqlNull. auto.
  - intros H. apply negb_true_iff in H. rewrite H. exists (SqlText s). auto.
  - intros _. exists SqlNull. auto.
Qed.

(** One turn of the loop on a well-formed record writes its row. *)
Lemma store_user_well_formed u w t :
  well_formed_user u = true -> visible w = Some t ->
  store_user u w =
  (Returned tt,
   World (disk w) (Some (Some (<[fst (record_row u) := record_fields u]> t)))).
Proof.
  intros Hwf Hvis. destruct u as [| | | | |d]; try discriminate.
  unfold well_formed_user in Hwf. apply andb_true_iff in Hwf as [Hid Htxt].
  destruct (dict_lookup (lit "id") d) as [[| |z| | |]|] eqn:Eid;
    try discriminate.
  cbn [forallb] in Htxt. rewrite !andb_true_iff in Htxt.
  destruct Htxt as (Hn & Hu & He & Hp & Hw & _).
  destruct (adapt_well_formed_text _ _ Hn) as (vn & En & Tn).
  destruct (adapt_well_formed_text _ _ Hu) as (vu & Eu & Tu).
  destruct (adapt_well_formed_text _ _ He) as (ve & Ee & Te).
  destruct (adapt_well_formed_text _ _ Hp) as (vp & Ep & Tp).
  destruct (adapt_well_formed_text _ _ Hw) as (vw & Ew & Tw).
  unfold store_user, execute_insert_or_replace, bind, lift, py_get, read_db,
    begin_transaction, write_dml, record_row, record_fields, user_id, py_get.
  rewrite Hvis, Eid, En, Eu, Ee, Ep, Ew. cbn.
  rewrite Hid. cbn. rewrite Tn, Tu, Te, Tp, Tw. reflexivity.
Qed.

Lemma for_each_store_user users : forall w t,
  Forall (fun u => well_formed_user u = true) users -> visible w = Some t ->
  exists w', for_each store_user users w = (Returned tt, w') /\
             disk w' = disk w /\ visible w' = Some (store_all t users).
Proof.
  induction users as [|u users IH]; intros w t Hwf Hvis.
  - exists w. auto.
  - inversion Hwf as [|? ? Hu Hus]; subst.
    cbn [for_each]. unfold bind at 1.
    rewrite (store_user_well_formed u w t Hu Hvis).
    destruct (IH (World (disk w)
                    (Some (Some (<[fst (record_row u) := record_fields u]> t))))
                 (<[fst (record_row u) := record_fields u]> t) Hus eq_refl)
      as (w' & Hrun & Hdisk & Hv).
    exists w'. split; [exact Hrun|]. split; [exact Hdisk|exact Hv].
Qed.

(** A successful response of well-formed records: every record is
    written, and the number of records is returned. *)
Lemma fetch_well_formed users db :
  Forall (fun u => well_formed_user u = true) users ->
  fetch_and_store_data (ok_response users) db =
  (Some (Z.of_nat (length users)), [], Some (store_all ∅ users)).
Proof.
  intros Hwf. unfold fetch_and_store_data, fetch_try, ok_response.
  destruct (for_each_store_user users (World (Some ∅) None) ∅ Hwf eq_refl)
    as (w' & Hrun & Hdisk & Hv).
  cbn. unfold bind at 1. rewrite Hrun. cbn. rewrite Hv. reflexivity.
Qed.

(** What a successful run returns and leaves behind does not depend on
    what the file held before. *)
Lemma fetch_forgets http db db' n msgs out :
  fetch_and_store_data http db = (Some n, msgs, out) ->
  fetch_and_store_data http db' = (Some n, msgs, out).
Proof.
  unfold fetch_and_store_data, fetch_try.
  destruct http as [[code [users|e]]|e]; cbn; try discriminate.
  - destruct (code =? 200); cbn; [|discriminate]. exact (fun H => H).
  - destruct (code =? 200); cbn; discriminate.
Qed.

End FetchProperties.

(** ** The table a refresh leaves *)

Lemma store_all_lookup users : forall (t : table) z,
  store_all t users !! z =
  match last_with_id z (map record_row users) with
  | Some f => Some f
  | None => t !! z
  end.
Proof.
  induction users as [|u users IH]; intros t z; [reflexivity|].
  unfold store_all in *. cbn [fold_left map]. rewrite IH.
  destruct (record_row u) as [k f]. cbn [last_with_id fst snd].
  destruct (last_with_id z (map record_row users)); [reflexivity|].
  destruct (decide (k = z)) as [->|Hne].
  - apply lookup_insert_eq.
  - apply lookup_insert_ne, Hne.
Qed.

Lemma last_with_id_In rows z f :
  last_with_id z rows = Some f -> In (z, f) rows.
Proof.
  induction rows as [|[k g] rows IH]; cbn; [discriminate|].
  destruct (last_with_id z rows) as [f'|].
  - intros [= ->]. right. apply IH. reflexivity.
  - destruct (decide (k = z)) as [->|]; [|discriminate].
    intros [= ->]. left. reflexivity.
Qed.

Lemma last_with_id_None rows z :
  last_with_id z rows = None <-> ~ In z (map fst rows).
Proof.
  induction rows as [|[k g] rows IH]; cbn; [tauto|].
  destruct (last_with_id z rows) as [f'|].
  - split; [discriminate|]. intros H. exfalso.
    assert (Hn : ~ In z (map fst rows)) by tauto.
    apply IH in Hn. discriminate.
  - destruct (decide (k = z)) as [->|Hne].
    + split; [discriminate|]. tauto.
    + split; [|reflexivity]. intros _ [H|H]; [congruence|].
      apply (proj1 IH); [reflexivity|exact H].
Qed.

Lemma last_with_id_NoDup rows z f :
  NoDup (map fst rows) -> In (z, f) rows -> last_with_id z rows = Some f.
Proof.
  induction rows as [|[k g] rows IH]; cbn; [tauto|].
  intros Hnd. inversion Hnd as [|? ? Hk Hrest]; subst.
  rewrite list_elem_of_In in Hk.
  intros [[= -> ->]|Hin].
  - apply last_with_id_None in Hk. rewrite Hk.
    destruct (decide (z = z)); [reflexivity|congruence].
  - rewrite (IH Hrest Hin). reflexivity.
Qed.

Lemma select_all_elem (t : table) z f :
  In (z, f) (select_all t) <-> t !! z = Some f.
Proof.
  rewrite <- list_elem_of_In. unfold select_all.
  rewrite merge_sort_Permutation. apply elem_of_map_to_list.
Qed.

Lemma select_all_NoDup_ids (t : table) : NoDup (map fst (select_all t)).
Proof.
  unfold select_all.
  assert (H : map fst (merge_sort by_rowid (map_to_list t))
              ≡ₚ map fst (map_to_list t)).
  { apply Permutation_map, merge_sort_Permutation. }
  rewrite H. apply NoDup_fst_map_to_list.
Qed.

Lemma select_all_ids (t : table) z :
  In z (map fst (select_all t)) <-> is_Some (t !! z).
Proof.
  rewrite in_map_iff. split.
  - intros ([k f] & <- & Hin). apply select_all_elem in Hin. eauto.
  - intros [f Hf]. exists (z, f). split; [reflexivity|].
    apply select_all_elem, Hf.
Qed.

(** With unique ids, the table holds the rows of the collection and
    nothing else. *)
Lemma store_all_exact users z f :
  NoDup (ids_of users) ->
  store_all ∅ users !! z = Some f <-> In (z, f) (map record_row users).
Proof.
  intros Hnd. rewrite store_all_lookup.
  assert (Hnd' : NoDup (map fst (map record_row users))).
  { unfold ids_of in Hnd. rewrite map_map. exact Hnd. }
  split.
  - destruct (last_with_id z (map record_row users)) as [f'|] eqn:E.
    + intros [= ->]. apply last_with_id_In, E.
    + rewrite lookup_empty. discriminate.
  - intros Hin. rewrite (last_with_id_NoDup _ _ _ Hnd' Hin). reflexivity.
Qed.

Lemma store_all_Permutation users :
  NoDup (ids_of users) ->
  select_all (store_all ∅ users) ≡ₚ map record_row users.
Proof.
  intros Hnd. apply NoDup_Permutation.
  - eapply NoDup_fmap_1. apply select_all_NoDup_ids.
  - eapply NoDup_fmap_1. unfold ids_of in Hnd.
    rewrite <- (map_map record_row fst) in Hnd. exact Hnd.
  - intros [z f]. rewrite !list_elem_of_In, select_all_elem.
    apply store_all_exact, Hnd.
Qed.

Lemma well_formed_user_id u :
  well_formed_user u = true ->
  exists z, user_id u = Some z /\ fst (record_row u) = z /\
            int64_min <= z <= int64_max.
Proof.
  destruct u as [| | | | |d]; try discriminate.
  unfold well_formed_user, record_row, user_id, py_get.
  destruct (dict_lookup (lit "id") d) as [[| |z| | |]|]; try discriminate.
  intros H. apply andb_true_iff in H as [H _].
  apply andb_true_iff in H as [H1 H2].
  exists z. cbn. split; [reflexivity|]. split; [reflexivity|]. lia.
Qed.

Section RefreshClaims.
Context {RT : Runtime}.

(** C1: a successful refresh leaves exactly the fetched collection in the
    table, whatever the table held before: a row is in the table if and
    only if it is the row of a fetched record; the same table results
    when the refresh follows any earlier refresh (for instance one of a
    larger collection); and for every successful run, of any response,
    the result does not depend on the prior content of the file. *)
Theorem refresh_replaces_snapshot (prior : database) users :
  well_formed_users users ->
  exists t : table,
    snd (fetch_and_store_data (ok_response users) prior) = Some t /\
    (forall z f, t !! z = Some f <-> In (z, f) (map record_row users)) /\
    (forall first db0,
        snd (fetch_and_store_data (ok_response users)
               (snd (fetch_and_store_data first db0))) = Some t) /\
    (forall http db db' n msgs out,
        fetch_and_store_data http db = (Some n, msgs, out) ->
        fetch_and_store_data http db' = (Some n, msgs, out)).
Proof.
  intros [Hwf Hnd]. exists (store_all ∅ users).
  assert (Hrun : forall db,
             snd (fetch_and_store_data (ok_response users) db)
             = Some (store_all ∅ users)).
  { intros db. rewrite fetch_well_formed by exact Hwf. reflexivity. }
  split; [apply Hrun|]. split; [|split].
  - intros z f. apply store_all_exact, Hnd.
  - intros first db0. apply Hrun.
  - apply fetch_forgets.
Qed.

(** C2: on a successful response carrying N well-formed records, the
    refresh returns N, shows no error, and leaves a table of exactly N
    rows: the rows of the fetched records, each stored under its id with
    its five text fields as fetched. *)
Theorem fetch_writes_records users db :
  well_formed_users users ->
  exists t : table,
    fetch_and_store_data (ok_response users) db =
      (Some (Z.of_nat (length users)), [], Some t) /\
    length (select_all t) = length users /\
    select_all t ≡ₚ map record_row users /\
    (forall u, In u users ->
       exists z, user_id u = Some z /\ t !! z = Some (record_fields u)).
Proof.
  intros [Hwf Hnd]. exists (store_all ∅ users).
  pose proof (store_all_Permutation users Hnd) as Hperm.
  split; [apply fetch_well_formed, Hwf|]. split; [|split; [exact Hperm|]].
  - rewrite Hperm. apply length_map.
  - intros u Hu.
    destruct (well_formed_user_id u) as (z & Hz & Hk & _).
    { rewrite Forall_forall in Hwf. apply Hwf, list_elem_of_In, Hu. }
    exists z. split; [exact Hz|]. apply store_all_exact; [exact Hnd|].
    apply in_map_iff. exists u. split; [|exact Hu].
    rewrite <- Hk. unfold record_row. reflexivity.
Qed.

(** C3: when the response status is not 200 (500 for instance, and so
    for every status that is no success), the refresh returns nothing,
    shows the remote-fetch error that names the status code, and leaves
    the file exactly as it was. *)
Theorem fetch_status_error resp db :
  status_code resp <> 200 ->
  fetch_and_store_data (Returned resp) db =
  (None, [st_error_api (status_code resp)], db).
Proof.
  intros H. unfold fetch_and_store_data, fetch_try. cbn.
  apply Z.eqb_neq in H. rewrite H. reflexivity.
Qed.

(** C9: when records of the fetched collection share an id, the refresh
    still succeeds; the table then has one row for each id that occurs,
    holding the fields of the last record with that id in fetch order. *)
Theorem duplicate_ids_last_wins users db :
  Forall (fun u => well_formed_user u = true) users ->
  exists t : table,
    fetch_and_store_data (ok_response users) db =
      (Some (Z.of_nat (length users)), [], Some t) /\
    NoDup (map fst (select_all t)) /\
    (forall z, In z (map fst (select_all t)) <-> In z (ids_of users)) /\
    (forall z, t !! z = last_with_id z (map record_row users)).
Proof.
  intros Hwf. exists (store_all ∅ users).
  assert (Hlook : forall z, store_all ∅ users !! z
                            = last_with_id z (map record_row users)).
  { intros z. rewrite store_all_lookup, lookup_empty.
    destruct (last_with_id z (map record_row users)); reflexivity. }
  split; [apply fetch_well_formed, Hwf|].
  split; [apply select_all_NoDup_ids|]. split; [|exact Hlook].
  intros z. rewrite select_all_ids, Hlook. unfold ids_of.
  rewrite <- (map_map record_row fst).
  destruct (last_with_id z (map record_row users)) as [f|] eqn:E.
  - split; [intros _|eauto].
    destruct (in_dec Z.eq_dec z (map fst (map record_row users))) as [H|H];
      [exact H|].
    apply last_with_id_None in H. congruence.
  - apply last_with_id_None in E. split; [|tauto].
    intros [f Hf]. discriminate.
Qed.

End RefreshClaims.

(** ** The claims on sample data *)

Lemma load_data_no_table_witness :
  fst (load_data (RT := ascii_runtime) None) = Raised NoSuchTable /\
  NoSuchTable = NoSuchTable /\ @None table = None.
Proof.
  split; [reflexivity|].
  exact (proj2 (load_data_no_table (RT := ascii_runtime))
               None NoSuchTable eq_refl).
Defined.

Lemma email_domain_spec_witness :
  let r := derive (RT := ascii_runtime)
             (1, sample_fields "Leanne Graham" "a.b@Example.COM") in
  let df := map (derive (RT := ascii_runtime)) (select_all sample_table) in
  load_data (RT := ascii_runtime) (Some sample_table)
    = (Returned df, Some sample_table) /\
  In r df /\
  email_domain r = Some (lit "example.com").
Proof.
  intros r df.
  assert (Hload : load_data (RT := ascii_runtime) (Some sample_table)
                  = (Returned df, Some sample_table))
    by (vm_compute; reflexivity).
  assert (Hin : In r df) by (vm_compute; left; reflexivity).
  split; [exact Hload|]. split; [exact Hin|].
  exact (proj2 (proj2 (proj2 (email_domain_spec _ _ _ _ Hload Hin))) eq_refl).
Defined.

Lemma name_length_spec_witness :
  let r := derive (RT := ascii_runtime) (3, Fields None None None None None) in
  let df := map (derive (RT := ascii_runtime)) (select_all sample_table) in
  load_data (RT := ascii_runtime) (Some sample_table)
    = (Returned df, Some sample_table) /\
  In r df /\
  name_length r = 4.
Proof.
  intros r df.
  assert (Hload : load_data (RT := ascii_runtime) (Some sample_table)
                  = (Returned df, Some sample_table))
    by (vm_compute; reflexivity).
  assert (Hin : In r df) by (vm_compute; right; right; left; reflexivity).
  split; [exact Hload|]. split; [exact Hin|].
  exact (proj2 (proj1 (proj2 (name_length_spec _ _ _ _ Hload Hin)) eq_refl)).
Defined.



Lemma email_domain_trailing_at_witness :
  let r := derive (RT := ascii_runtime)
             (2, sample_fields "Ervin Howell" "user@") in
  let df := map (derive (RT := ascii_runtime)) (select_all sample_table) in
  load_data (RT := ascii_runtime) (Some sample_table)
    = (Returned df, Some sample_table) /\
  In r df /\
  email_domain r = Some [].
Proof.
  intros r df.
  assert (Hload : load_data (RT := ascii_runtime) (Some sample_table)
                  = (Returned df, Some sample_table))
    by (vm_compute; reflexivity).
  assert (Hin : In r df) by (vm_compute; right; left; reflexivity).
  split; [exact Hload|]. split; [exact Hin|].
  exact (proj1 (proj2 (email_domain_trailing_at _ _ _ _ Hload Hin)) eq_refl).
Defined.

Lemma refresh_replaces_snapshot_witness :
  well_formed_users [ervin'] /\
  exists t : table,
    snd (fetch_and_store_data (RT := ascii_runtime) (ok_response [ervin'])
           (Some sample_table)) = Some t /\
    (forall z f, t !! z = Some f <-> In (z, f) (map record_row [ervin'])).
Proof.
  assert (Hwf : well_formed_users [ervin']).
  { split; [repeat constructor|].
    apply (bool_decide_unpack _). vm_compute. exact I. }
  split; [exact Hwf|].
  destruct (refresh_replaces_snapshot (RT := ascii_runtime)
              (Some sample_table) [ervin'] Hwf) as (t & Hrun & Hrows & _).
  exists t. split; [exact Hrun|exact Hrows].
Defined.

Lemma fetch_writes_records_witness :
  well_formed_users [leanne; ervin] /\
  exists t : table,
    fetch_and_store_data (RT := ascii_runtime) (ok_response [leanne; ervin])
      None = (Some 2, [], Some t) /\
    length (select_all t) = 2%nat.
Proof.
  assert (Hwf : well_formed_users [leanne; ervin]).
  { split; [repeat constructor|].
    apply (bool_decide_unpack _). vm_compute. exact I. }
  split; [exact Hwf|].
  destruct (fetch_writes_records (RT := ascii_runtime) [leanne; ervin] None Hwf)
    as (t & Hrun & Hlen & _).
  exists t. split; [exact Hrun|exact Hlen].
Defined.

Lemma fetch_status_error_witness :
  500 <> 200 /\
  fetch_and_store_data (RT := ascii_runtime)
    (Returned (Response 500 (Raised JSONDecodeError))) (Some sample_table)
  = (None, [st_error_api 500], Some sample_table).
Proof.
  assert (H : 500 <> 200) by lia.
  split; [exact H|].
  exact (fetch_status_error (RT := ascii_runtime)
           (Response 500 (Raised JSONDecodeError)) (Some sample_table) H).
Defined.

Lemma duplicate_ids_last_wins_witness :
  Forall (fun u => well_formed_user u = true) [leanne; ervin; ervin'] /\
  exists t : table,
    fetch_and_store_data (RT := ascii_runtime)
      (ok_response [leanne; ervin; ervin']) None = (Some 3, [], Some t) /\
    t !! 2 = Some (sample_fields "Ervin H." "shanna.example").
Proof.
  assert (Hwf : Forall (fun u => well_formed_user u = true)
                       [leanne; ervin; ervin'])
    by (repeat constructor).
  split; [exact Hwf|].
  destruct (duplicate_ids_last_wins (RT := ascii_runtime)
              [leanne; ervin; ervin'] None Hwf) as (t & Hrun & _ & _ & Hlast).
  exists t. split; [exact Hrun|]. rewrite Hlast. reflexivity.
Defined.

(** ** The CSV export and its re-reading *)

Lemma string_of_uint_ascii d :
  forallb is_ascii (lit (NilEmpty.string_of_uint d)) = true.
Proof. induction d; cbn; auto. Qed.

Lemma string_of_int_ascii d :
  forallb is_ascii (lit (NilZero.string_of_int d)) = true.
Proof.
  destruct d as [d|d]; cbn.
  - destruct d; try reflexivity; apply (string_of_uint_ascii (_ d)).
  - destruct d; try reflexivity; apply (string_of_uint_ascii (_ d)).
Qed.

Lemma ascii_of_lit s : map ascii_of_N (lit s) = list_ascii_of_string s.
Proof.
  unfold lit. rewrite map_map.
  rewrite (map_ext _ (fun a => a)) by apply ascii_N_embedding.
  apply map_id.
Qed.

Lemma to_int_not_nil z : Z.to_int z <> Pos Nil /\ Z.to_int z <> Neg Nil.
Proof.
  destruct z as [|p|p]; cbn; split; try discriminate;
    intros [= H]; apply (DecimalPos.Unsigned.to_uint_nonnil p H).
Qed.

Section CsvProperties.
Context {RT : Runtime}.

Lemma parse_int_repr_int z : parse_int (repr_int z) = Some z.
Proof.
  unfold parse_int, repr_int. rewrite string_of_int_ascii, ascii_of_lit.
  rewrite string_of_list_ascii_of_string.
  destruct (to_int_not_nil z) as [Hp Hn].
  rewrite NilZero.isi by assumption. cbn. rewrite DecimalZ.of_to. reflexivity.
Qed.

Lemma needs_quotes_false c :
  needs_quotes c = false ->
  N.eqb c comma = false /\ N.eqb c quotechar = false /\
  N.eqb c LF = false /\ N.eqb c CR && os_linesep_crlf = false.
Proof.
  unfold needs_quotes, lineterminator, contains.
  destruct os_linesep_crlf; cbn; rewrite !orb_false_iff;
    intros H; repeat split; try tauto.
  - rewrite andb_true_r. tauto.
  - apply andb_false_r.
Qed.

Lemma step_comma f rec dn st :
  holding f rec dn st -> step st comma = Reader AtStart [] (f :: rec) dn.
Proof.
  intros (m & -> & Hm). unfold step, step_outside, end_field. cbn.
  rewrite rev_involutive. destruct m; try reflexivity. congruence.
Qed.

Lemma run_lineterminator f rec dn st :
  holding f rec dn st ->
  fold_left step lineterminator st = Reader AtStart [] [] (rev (f :: rec) :: dn).
Proof.
  intros (m & -> & Hm). unfold lineterminator.
  destruct os_linesep_crlf eqn:E; cbn [fold_left].
  - assert (H1 : step (Reader m (rev f) rec dn) CR = Reader m (rev f) rec dn).
    { unfold step, step_outside. cbn. rewrite E.
      destruct m; try reflexivity. congruence. }
    rewrite H1. unfold step, step_outside, end_record. cbn.
    rewrite rev_involutive. destruct m; try reflexivity. congruence.
  - unfold step, step_outside, end_record. cbn.
    rewrite rev_involutive. destruct m; try reflexivity. congruence.
Qed.

(** A field written without quotes is read character by character. *)
Lemma run_plain f : forall m acc rec dn,
  existsb needs_quotes f = false -> m = AtStart \/ m = InUnquoted ->
  exists m', fold_left step f (Reader m acc rec dn)
             = Reader m' (rev f ++ acc) rec dn /\
             (m' = AtStart \/ m' = InUnquoted).
Proof.
  induction f as [|c f IH]; intros m acc rec dn Hf Hm.
  - exists m. split; [reflexivity|exact Hm].
  - cbn in Hf. apply orb_false_iff in Hf as [Hc Hf].
    destruct (needs_quotes_false c Hc) as (H1 & H2 & H3 & H4).
    assert (Hstep : step (Reader m acc rec dn) c
                    = Reader InUnquoted (c :: acc) rec dn).
    { unfold step, step_outside. cbn. rewrite H1, H2, H3, H4.
      destruct Hm as [-> | ->]; reflexivity. }
    cbn [fold_left]. rewrite Hstep.
    destruct (IH InUnquoted (c :: acc) rec dn Hf (or_intror eq_refl))
      as (m' & -> & Hm').
    exists m'. split; [|exact Hm'].
    cbn [rev]. rewrite <- app_assoc. reflexivity.
Qed.

(** Inside quotes a doubled quote is read as one quote. *)
Lemma run_quoted f : forall acc rec dn,
  fold_left step (double_quotes f) (Reader InQuoted acc rec dn)
  = Reader InQuoted (rev f ++ acc) rec dn.
Proof.
  induction f as [|c f IH]; intros acc rec dn; [reflexivity|].
  cbn [double_quotes rev]. rewrite <- app_assoc.
  destruct (N.eqb c quotechar) eqn:E.
  - apply N.eqb_eq in E. subst c. cbn [fold_left]. apply IH.
  - cbn [fold_left]. unfold step at 2. cbn. rewrite E. apply IH.
Qed.

Lemma run_write_field f rec dn :
  holding f rec dn
    (fold_left step (write_field f) (Reader AtStart [] rec dn)).
Proof.
  unfold write_field. destruct (existsb needs_quotes f) eqn:E.
  - cbn [fold_left]. rewrite fold_left_app.
    change (step (Reader AtStart [] rec dn) quotechar)
      with (Reader InQuoted [] rec dn).
    rewrite run_quoted, app_nil_r. cbn.
    exists QuoteSeen. split; [reflexivity|discriminate].
  - destruct (run_plain f AtStart [] rec dn E (or_introl eq_refl))
      as (m' & -> & Hm').
    rewrite app_nil_r. exists m'. split; [reflexivity|].
    destruct Hm' as [-> | ->]; discriminate.
Qed.

Lemma run_row fs : forall rec dn,
  fs <> [] ->
  fold_left step (join_fields (map write_field fs) ++ lineterminator)
    (Reader AtStart [] rec dn)
  = Reader AtStart [] [] (rev (rev fs ++ rec) :: dn).
Proof.
  induction fs as [|f fs IH]; intros rec dn Hne; [congruence|].
  destruct fs as [|g fs].
  - cbn [map join_fields]. rewrite fold_left_app.
    rewrite (run_lineterminator f rec dn) by apply run_write_field.
    reflexivity.
  - change (join_fields (map write_field (f :: g :: fs)))
      with (write_field f ++ comma :: join_fields (map write_field (g :: fs))).
    rewrite <- app_assoc, fold_left_app. cbn [app fold_left].
    rewrite (step_comma f rec dn) by apply run_write_field.
    rewrite IH by discriminate.
    cbn [rev]. rewrite <- !app_assoc. reflexivity.
Qed.

Lemma run_writerow fs dn :
  fs <> [] ->
  fold_left step (writerow fs) (Reader AtStart [] [] dn)
  = Reader AtStart [] [] (fs :: dn).
Proof.
  intros Hne.
  assert (Hgen : fold_left step
                   (join_fields (map write_field fs) ++ lineterminator)
                   (Reader AtStart [] [] dn)
                 = Reader AtStart [] [] (fs :: dn)).
  { rewrite run_row by exact Hne. rewrite app_nil_r, rev_involutive.
    reflexivity. }
  unfold writerow. destruct fs as [|[|c f] [|g fs]]; try exact Hgen.
  rewrite fold_left_app.
  rewrite (run_lineterminator [] [] dn); [reflexivity|].
  exists QuoteSeen. split; [reflexivity|discriminate].
Qed.

Lemma run_rows rows : forall dn,
  Forall (fun fs => fs <> []) rows ->
  fold_left step (concat (map writerow rows)) (Reader AtStart [] [] dn)
  = Reader AtStart [] [] (rev rows ++ dn).
Proof.
  induction rows as [|fs rows IH]; intros dn Hne; [reflexivity|].
  inversion Hne as [|? ? Hfs Hrows]; subst.
  cbn [map concat]. rewrite fold_left_app, run_writerow by exact Hfs.
  rewrite IH by exact Hrows. cbn [rev]. rewrite <- app_assoc. reflexivity.
Qed.

(** The reader finds the header and the rows that were written. *)
Lemma read_records_to_csv df :
  read_records (to_csv df) = csv_header :: map csv_values df.
Proof.
  unfold read_records, to_csv.
  rewrite fold_left_app, run_writerow by discriminate.
  rewrite <- (map_map csv_values writerow).
  rewrite run_rows.
  - cbn [done_records]. rewrite rev_app_distr, rev_involutive. reflexivity.
  - apply Forall_forall. intros fs Hin.
    apply list_elem_of_In, in_map_iff in Hin as (r & <- & _). discriminate.
Qed.

Lemma read_tuple_csv_values r :
  read_tuple (csv_values r) = Some (null_formatted (view_tuple r)).
Proof.
  unfold read_tuple, csv_values. rewrite !parse_int_repr_int. reflexivity.
Qed.

(** C7: the text of the exported frame, read again, gives the
    (id, name, email, name_length, email_domain) tuples of the frame, row
    for row, with each null value in its exported format, the empty
    text. *)
Theorem csv_round_trip (df : DataFrame) :
  read_csv (to_csv df) = Some (map (fun r => null_formatted (view_tuple r)) df).
Proof.
  unfold read_csv. rewrite read_records_to_csv.
  induction df as [|r df IH]; [reflexivity|].
  cbn [map read_tuples]. rewrite read_tuple_csv_values, IH. reflexivity.
Qed.

End CsvProperties.

(** ** Runs on sample data *)

(** A body that is no sequence: the table has been dropped and recreated
    before the loop fails, and nothing is written. *)
Example fetch_body_not_iterable :
  fetch_and_store_data (RT := ascii_runtime)
    (Returned (Response 200 (Returned (PyInt 3)))) (Some sample_table)
  = (None, [st_error_exception TypeError], Some ∅).
Proof. reflexivity. Qed.

(** A record that cannot be bound in the middle of the loop: the rows
    written before it are lost with the open transaction. *)
Example fetch_unbindable_record :
  fetch_and_store_data (RT := ascii_runtime)
    (ok_response [leanne; PyDict [(lit "id", PyList [])]]) None
  = (None, [st_error_exception BindingError], Some ∅).
Proof. reflexivity. Qed.

(** The network fails: nothing is touched. *)
Example fetch_network_failure :
  fetch_and_store_data (RT := ascii_runtime)
    (Raised RequestException) (Some sample_table)
  = (None, [st_error_exception RequestException], Some sample_table).
Proof. reflexivity. Qed.

(** The export of the sample table. *)
Example to_csv_sample :
  to_csv (RT := ascii_runtime)
    (map (derive (RT := ascii_runtime)) (select_all sample_table))
  = lit "id,name,username,email,phone,website,name_length,email_domain
1,Leanne Graham,,a.b@Example.COM,,,13,example.com
2,Ervin Howell,,user@,,,12,
3,,,,,,4,
".
Proof. vm_compute. reflexivity. Qed.

(** * Further properties of the code *)

(** ** Runs of the refresh that fail, and what a run can leave *)

Section RefreshRuns.
Context {RT : Runtime}.

(** One turn of the loop never touches the file itself, and when it
    succeeds it has written one row into the working copy. *)
Lemma store_user_run u w :
  exists o w', store_user u w = (o, w') /\ disk w' = disk w /\
    (o = Returned tt ->
     exists (t : table) k f,
       visible w = Some t /\ visible w' = Some (<[k := f]> t)).
Proof.
  unfold store_user, execute_insert_or_replace, bind, lift, read_db,
    begin_transaction, write_dml, raise.
  repeat match goal with
  | |- context [match ?x with _ => _ end] => destruct x eqn:?
  end;
  (eexists _, _; split; [reflexivity|]; split; [reflexivity|]; intros [=]).
  all: do 3 eexists; split; reflexivity.
Qed.

Lemma for_each_store_run us : forall w,
  exists o w', for_each store_user us w = (o, w') /\ disk w' = disk w /\
    (o = Returned tt -> forall t : table, visible w = Some t ->
     exists t' : table, visible w' = Some t' /\
                        (size t' <= size t + length us)%nat).
Proof.
  induction us as [|u us IH]; intros w.
  - exists (Returned tt), w. split; [reflexivity|]. split; [reflexivity|].
    intros _ t Ht. exists t. split; [exact Ht|]. cbn. lia.
  - destruct (store_user_run u w) as (o1 & w1 & Hrun1 & Hdisk1 & Hok1).
    cbn [for_each]. unfold bind at 1. rewrite Hrun1.
    destruct o1 as [[]|e].
    + destruct (IH w1) as (o2 & w2 & Hrun2 & Hdisk2 & Hok2).
      exists o2, w2. split; [exact Hrun2|]. split; [congruence|].
      intros Ho t Ht.
      destruct (Hok1 eq_refl) as (t0 & k & f & Ht0 & Hw1).
      assert (t0 = t) by congruence. subst t0.
      destruct (Hok2 Ho _ Hw1) as (t' & Ht' & Hsize).
      exists t'. split; [exact Ht'|].
      assert (size (<[k:=f]> t) <= S (size t))%nat.
      { rewrite map_size_insert. destruct (t !! k); simpl; lia. }
      cbn [length]. lia.
    + exists (Raised e), w1. split; [reflexivity|]. split; [exact Hdisk1|].
      discriminate.
Qed.

Lemma py_len_of_iter users us :
  py_iter users = Returned us -> py_len users = Returned (Z.of_nat (length us)).
Proof.
  destruct users; cbn; intros [= <-]; try reflexivity.
  - unfold len. rewrite length_map. reflexivity.
  - rewrite length_map. reflexivity.
Qed.

(** The run once the body of the response has been parsed. *)
Lemma fetch_parsed users db :
  fetch_and_store_data (Returned (Response 200 (Returned users))) db =
  match py_iter users with
  | Raised e => (None, [st_error_exception e], Some ∅)
  | Returned us =>
      match for_each store_user us (World (Some ∅) None) with
      | (Returned _, w') =>
          (Some (Z.of_nat (length us)), [], visible w')
      | (Raised e, w') => (None, [st_error_exception e], disk w')
      end
  end.
Proof.
  unfold fetch_and_store_data, fetch_try. cbn.
  destruct (py_iter users) as [us|e] eqn:Hit; cbn; [|reflexivity].
  unfold bind at 1.
  destruct (for_each store_user us (World (Some ∅) None)) as [[[]|e] w'];
    cbn; [|reflexivity].
  rewrite (py_len_of_iter _ _ Hit). reflexivity.
Qed.

(** A run that returns a count shows no message. *)
Lemma fetch_success_no_message http db n msgs out :
  fetch_and_store_data http db = (Some n, msgs, out) -> msgs = [].
Proof.
  destruct http as [[code [users|e]]|e].
  - destruct (code =? 200) eqn:Hcode.
    + apply Z.eqb_eq in Hcode. subst code. rewrite fetch_parsed.
      destruct (py_iter users) as [us|e]; [|discriminate].
      destruct (for_each store_user us (World (Some ∅) None)) as [[[]|e] w'];
        [|discriminate].
      intros [= _ <- _]. reflexivity.
    + unfold fetch_and_store_data, fetch_try. cbn. rewrite Hcode. cbn.
      discriminate.
  - unfold fetch_and_store_data, fetch_try. cbn.
    destruct (code =? 200); cbn; discriminate.
  - unfold fetch_and_store_data, fetch_try. cbn. discriminate.
Qed.

(** A body that is run through without a single turn of the loop. *)
Lemma fetch_parsed_empty body db :
  py_iter body = Returned [] ->
  fetch_and_store_data (Returned (Response 200 (Returned body))) db
  = (Some 0, [], Some ∅).
Proof.
  intros H. rewrite fetch_parsed, H. reflexivity.
Qed.

(** X1: a refresh that fails shows exactly one error and never leaves a
    partly written table: when the failure comes before the body is
    parsed the file is as it was, and after that the table is there and
    empty. *)
Theorem fetch_failure_outcome http db msgs out :
  fetch_and_store_data http db = (None, msgs, out) ->
  (exists m, msgs = [m]) /\
  ((exists users, http = Returned (Response 200 (Returned users)))
     /\ out = Some ∅
   \/ (forall users, http <> Returned (Response 200 (Returned users)))
     /\ out = db).
Proof.
  destruct http as [[code [users|e]]|e].
  - destruct (code =? 200) eqn:Hcode.
    + apply Z.eqb_eq in Hcode. subst code. rewrite fetch_parsed.
      destruct (py_iter users) as [us|e].
      * destruct (for_each_store_run us (World (Some ∅) None))
          as (o & w' & -> & Hdisk & _).
        destruct o as [[]|e]; [discriminate|].
        intros [= <- <-]. split; [eauto|]. left. split; [eauto|exact Hdisk].
      * intros [= <- <-]. split; [eauto|]. left. split; [eauto|reflexivity].
    + unfold fetch_and_store_data, fetch_try. cbn. rewrite Hcode. cbn.
      intros [= <- <-]. split; [eauto|]. right. split; [|reflexivity].
      intros body [= -> _]. discriminate.
  - unfold fetch_and_store_data, fetch_try. cbn.
    destruct (code =? 200); cbn; intros [= <- <-];
      (split; [eauto|]; right; split; [intros body; discriminate|reflexivity]).
  - unfold fetch_and_store_data, fetch_try. cbn. intros [= <- <-].
    split; [eauto|]. right. split; [intros body; discriminate|reflexivity].
Qed.

(** X2: a refresh that returns a count had status 200 and a body that
    could be run through, shows no message, returns the length of the
    body, and leaves a table with at most that many rows. *)
Theorem fetch_success_outcome http db n msgs out :
  fetch_and_store_data http db = (Some n, msgs, out) ->
  msgs = [] /\
  exists users us (t : table),
    http = Returned (Response 200 (Returned users)) /\
    py_iter users = Returned us /\ n = Z.of_nat (length us) /\
    out = Some t /\ Z.of_nat (size t) <= n.
Proof.
  destruct http as [[code [users|e]]|e].
  - destruct (code =? 200) eqn:Hcode.
    + apply Z.eqb_eq in Hcode. subst code. rewrite fetch_parsed.
      destruct (py_iter users) as [us|e] eqn:Hit; [|discriminate].
      destruct (for_each_store_run us (World (Some ∅) None))
        as (o & w' & -> & _ & Hok).
      destruct o as [[]|e]; [|discriminate].
      destruct (Hok eq_refl ∅ eq_refl) as (t' & Ht' & Hsize).
      intros [= <- <- <-]. split; [reflexivity|].
      exists users, us, t'. rewrite map_size_empty in Hsize.
      repeat split; auto. lia.
    + unfold fetch_and_store_data, fetch_try. cbn. rewrite Hcode. cbn.
      discriminate.
  - unfold fetch_and_store_data, fetch_try. cbn.
    destruct (code =? 200); cbn; discriminate.
  - unfold fetch_and_store_data, fetch_try. cbn. discriminate.
Qed.

End RefreshRuns.

(** ** Bodies of other shapes, ids out of range, records without id *)

Section RefreshEdges.
Context {RT : Runtime}.

#[local] Arguments lit : simpl never.


(** X3: a 200 response whose body can be run through and is empty (an
    empty array, but also an empty object or an empty string) is a
    success: the refresh returns 0, shows nothing, and leaves the table
    empty whatever it held. *)
Theorem fetch_empty_body body db :
  py_iter body = Returned [] ->
  fetch_and_store_data (Returned (Response 200 (Returned body))) db
  = (Some 0, [], Some ∅).
Proof.
  intros Hbody. rewrite fetch_parsed, Hbody. cbn [for_each ret visible].
  reflexivity.
Qed.

(** X4: a 200 response whose body is no array and is not empty fails
    after the table has been recreated: a null, a boolean or a number
    cannot be iterated ([TypeError]), the keys of an object and the
    characters of a string have no [get] ([AttributeError]); either way
    the old rows are gone and the table is empty. *)
Theorem fetch_body_not_array body db :
  (forall l, body <> PyList l) -> py_iter body <> Returned [] ->
  fetch_and_store_data (Returned (Response 200 (Returned body))) db
  = (None,
     [st_error_exception
        match py_iter body with
        | Raised _ => TypeError
        | Returned _ => AttributeError
        end],
     Some ∅).
Proof.
  intros Hlist Hne. rewrite fetch_parsed.
  destruct body as [| | | s | l | d]; try reflexivity.
  - destruct s as [|c s]; [contradiction Hne; reflexivity|reflexivity].
  - contradiction (Hlist l). reflexivity.
  - destruct d as [|[k v] d]; [contradiction Hne; reflexivity|reflexivity].
Qed.


Lemma max_rowid_spec z ids :
  exists m, max_rowid (z :: ids) = Some m /\ In m (z :: ids) /\
            forall x, In x (z :: ids) -> x <= m.
Proof.
  exists (fold_right Z.max z ids). split; [reflexivity|].
  induction ids as [|y ids (Hin & Hmax)]; cbn [fold_right].
  - split; [left; reflexivity|]. intros x [->|[]]. lia.
  - split.
    + destruct (Z.max_spec y (fold_right Z.max z ids)) as [[_ ->]|[_ ->]].
      * destruct Hin as [Hin|Hin]; [left; exact Hin|right; right; exact Hin].
      * right. left. reflexivity.
    + intros x [->|[->|Hx]].
      * specialize (Hmax x (or_introl eq_refl)). lia.
      * lia.
      * specialize (Hmax x (or_intror Hx)). lia.
Qed.

Lemma new_rowid_numbered k t :
  0 <= k < int64_max -> numbered k t -> new_rowid t = Returned (k + 1).
Proof.
  intros Hk Hnum. unfold new_rowid.
  assert (Hids : forall z, In z (map fst (select_all t)) <-> 1 <= z <= k).
  { intros z. rewrite select_all_ids. apply Hnum. }
  destruct (map fst (select_all t)) as [|z0 ids] eqn:E.
  - assert (k = 0).
    { destruct (Z.eq_dec k 0) as [|Hne]; [assumption|].
      exfalso. apply (Hids k). lia. }
    subst k. reflexivity.
  - destruct (max_rowid_spec z0 ids) as (m & -> & Hin & Hmax).
    assert (Hm : 1 <= m <= k) by (apply Hids, Hin).
    assert (Hkm : k <= m) by (apply Hmax, Hids; lia).
    assert (m = k) by lia. subst m.
    replace (k <? int64_max) with true; [reflexivity|].
    symmetry. apply Z.ltb_lt. lia.
Qed.

End RefreshEdges.

Section AnonymousRecords.
Context {RT : Runtime}.

#[local] Arguments lit : simpl never.

Lemma store_user_anonymous u w (t : table) k :
  anonymous_user u = true -> visible w = Some t ->
  numbered k t -> 0 <= k < int64_max ->
  store_user u w =
  (Returned tt,
   World (disk w) (Some (Some (<[k + 1 := record_fields u]> t)))).
Proof.
  intros Han Hvis Hnum Hk. destruct u as [| | | | |d]; try discriminate.
  unfold anonymous_user in Han. apply andb_true_iff in Han as [Hid Htxt].
  assert (Eid : default PyNone (dict_lookup (lit "id") d) = PyNone).
  { destruct (dict_lookup (lit "id") d) as [[| | | | |]|];
      try discriminate; reflexivity. }
  cbn [forallb] in Htxt. rewrite !andb_true_iff in Htxt.
  destruct Htxt as (Hn & Hu & He & Hp & Hw & _).
  destruct (adapt_well_formed_text _ _ Hn) as (vn & En & Tn).
  destruct (adapt_well_formed_text _ _ Hu) as (vu & Eu & Tu).
  destruct (adapt_well_formed_text _ _ He) as (ve & Ee & Te).
  destruct (adapt_well_formed_text _ _ Hp) as (vp & Ep & Tp).
  destruct (adapt_well_formed_text _ _ Hw) as (vw & Ew & Tw).
  unfold store_user, execute_insert_or_replace, bind, lift, py_get, read_db,
    begin_transaction, write_dml, record_fields.
  rewrite Hvis, Eid, En, Eu, Ee, Ep, Ew. cbn.
  rewrite (new_rowid_numbered k t Hk Hnum). cbn.
  rewrite Tn, Tu, Te, Tp, Tw. reflexivity.
Qed.

Lemma numbered_insert k (t : table) f :
  0 <= k -> numbered k t ->
  numbered (k + 1) (<[k + 1 := f]> t) /\ t !! (k + 1) = None.
Proof.
  intros Hk Hnum. split.
  - intros z. rewrite lookup_insert_is_Some, (Hnum z). lia.
  - destruct (t !! (k + 1)) as [g|] eqn:E; [|reflexivity].
    assert (H : 1 <= k + 1 <= k) by (apply Hnum; eauto). lia.
Qed.

Lemma for_each_anonymous us : forall w (t : table) k,
  Forall (fun u => anonymous_user u = true) us ->
  visible w = Some t -> numbered k t ->
  0 <= k -> k + Z.of_nat (length us) <= int64_max ->
  exists w' (t' : table),
    for_each store_user us w = (Returned tt, w') /\
    disk w' = disk w /\ visible w' = Some t' /\
    size t' = (size t + length us)%nat /\
    (forall i u, us !! i = Some u ->
                 t' !! (k + 1 + Z.of_nat i) = Some (record_fields u)) /\
    (forall z, z <= k -> t' !! z = t !! z).
Proof.
  induction us as [|u us IH]; intros w t k Han Hvis Hnum Hk Hlen.
  - exists w, t. split; [reflexivity|]. split; [reflexivity|].
    split; [exact Hvis|]. split; [cbn; lia|].
    split; [intros i u; rewrite lookup_nil; discriminate|reflexivity].
  - inversion Han as [|? ? Hu Hus]; subst. cbn [length] in Hlen.
    cbn [for_each]. unfold bind at 1.
    rewrite (store_user_anonymous u w t k Hu Hvis Hnum) by lia.
    destruct (numbered_insert k t (record_fields u) Hk Hnum) as [Hnum1 Hfresh].
    destruct (IH (World (disk w)
                    (Some (Some (<[k + 1 := record_fields u]> t))))
                 (<[k + 1 := record_fields u]> t) (k + 1) Hus eq_refl Hnum1)
      as (w' & t' & Hrun & Hdisk & Hv & Hsize & Hnew & Hold); try lia.
    exists w', t'. split; [exact Hrun|]. split; [exact Hdisk|].
    split; [exact Hv|]. split; [|split].
    + rewrite Hsize, map_size_insert_None by exact Hfresh. cbn [length]. lia.
    + intros [|i] v Hi.
      * cbn in Hi. injection Hi as <-. rewrite Z.add_0_r, Hold by lia.
        apply lookup_insert_eq.
      * cbn in Hi. specialize (Hnew i v Hi).
        replace (k + 1 + Z.of_nat (S i)) with (k + 1 + 1 + Z.of_nat i) by lia.
        exact Hnew.
    + intros z Hz. rewrite Hold by lia. apply lookup_insert_ne. lia.
Qed.

(** X6: when no record of the fetched collection carries an id (every
    id is missing or null) and the other fields are free text, all the
    records are kept: the refresh numbers them 1, 2, ... in fetch order,
    returns their number, and the table has one row for each. (A record
    with an id of its own in the same collection can take the number
    given to a record without one, see [fetch_null_id_overwritten].) *)
Theorem fetch_missing_ids_numbered users db :
  Forall (fun u => anonymous_user u = true) users ->
  Z.of_nat (length users) <= int64_max ->
  exists t : table,
    fetch_and_store_data (ok_response users) db
      = (Some (Z.of_nat (length users)), [], Some t) /\
    size t = length users /\
    (forall i u, users !! i = Some u ->
                 t !! (Z.of_nat i + 1) = Some (record_fields u)).
Proof.
  intros Han Hlen.
  destruct (for_each_anonymous users (World (Some ∅) None) ∅ 0 Han eq_refl)
    as (w' & t' & Hrun & _ & Hv & Hsize & Hnew & _); try lia.
  { intros z. rewrite lookup_empty. split; [intros [? [=]]|lia]. }
  exists t'. unfold ok_response. rewrite fetch_parsed. cbn [py_iter].
  rewrite Hrun, Hv. split; [reflexivity|].
  split; [rewrite Hsize, map_size_empty; reflexivity|].
  intros i u Hi. rewrite <- (Hnew i u Hi). f_equal. lia.
Qed.

End AnonymousRecords.

(** ** The loaded frame *)




Lemma last_occurrence (c : codepoint) s :
  In c s -> exists pre suf, s = pre ++ c :: suf /\ ~ In c suf.
Proof.
  induction s as [|x s IH]; [intros []|].
  intros Hin. destruct (in_dec N.eq_dec c s) as [Hs|Hs].
  - destruct (IH Hs) as (pre & suf & -> & Hsuf).
    exists (x :: pre), suf. split; [reflexivity|exact Hsuf].
  - destruct Hin as [->|Hin]; [|contradiction].
    exists [], s. split; [reflexivity|exact Hs].
Qed.

Lemma ascii_lower_spec c :
  is_ascii c = true ->
  is_ascii (ascii_lower c) = true /\
  ~ (65 <= ascii_lower c <= 90)%N /\
  ascii_lower (ascii_lower c) = ascii_lower c /\
  (c <> at_sign -> ascii_lower c <> at_sign).
Proof.
  unfold is_ascii, ascii_lower, at_sign. intros H. apply N.ltb_lt in H.
  destruct (N.leb 65 c && N.leb c 90) eqn:E.
  - apply andb_true_iff in E as [E1 E2].
    apply N.leb_le in E1, E2.
    replace (N.leb 65 (c + 32) && N.leb (c + 32) 90) with false.
    + repeat split; try lia. apply N.ltb_lt. lia.
    + symmetry. apply andb_false_iff. right. apply N.leb_gt. lia.
  - rewrite E. apply andb_false_iff in E.
    repeat split; try lia; [apply N.ltb_lt; lia|].
    destruct E as [E|E]; apply N.leb_gt in E; lia.
Qed.

Section FrameProperties.
Context {RT : Runtime}.



(** X9: for an email of ASCII characters, the derived domain holds no
    ['@'] and no upper-case letter, is left as it is by a further
    lower-casing, and is shorter than the email. *)
Theorem email_domain_normalised db df db' r e d :
  load_data db = (Returned df, db') -> In r df ->
  email (row_fields r) = Some e -> forallb is_ascii e = true ->
  email_domain r = Some d ->
  ~ In at_sign d /\
  Forall (fun c => ~ (65 <= c <= 90)%N) d /\
  lower d = d /\
  (length d < length e)%nat.
Proof.
  intros Hload Hr.
  destruct (load_data_rows _ _ _ _ Hload Hr) as (t & i & f & _ & _ & ->).
  cbn. intros -> Hascii. cbn. unfold email_domain_of.
  destruct (contains at_sign e) eqn:Hat; [|discriminate].
  apply contains_true_in, last_occurrence in Hat as (pre & suf & -> & Hsuf).
  rewrite item_last_split by exact Hsuf. intros [= <-].
  rewrite forallb_app in Hascii. apply andb_true_iff in Hascii as [_ Hascii].
  cbn [forallb] in Hascii. apply andb_true_iff in Hascii as [_ Hascii].
  assert (Hlow : lower suf = map ascii_lower suf)
    by (unfold lower; rewrite Hascii; reflexivity).
  rewrite Hlow. clear Hlow. rewrite forallb_forall in Hascii.
  assert (Hall : forall c, In c suf ->
            is_ascii (ascii_lower c) = true /\
            ~ (65 <= ascii_lower c <= 90)%N /\
            ascii_lower (ascii_lower c) = ascii_lower c /\
            ascii_lower c <> at_sign).
  { intros c Hc. destruct (ascii_lower_spec c (Hascii c Hc)) as (A & B & C & D).
    repeat split; auto. apply D. intros ->. contradiction. }
  split; [|split; [|split]].
  - intros Hin. apply in_map_iff in Hin as (c & Hc & Hin).
    destruct (Hall c Hin) as (_ & _ & _ & Hne). contradiction.
  - apply Forall_forall. intros c Hc.
    apply list_elem_of_In, in_map_iff in Hc as (c0 & <- & Hin).
    apply (Hall c0 Hin).
  - unfold lower.
    replace (forallb is_ascii (map ascii_lower suf)) with true.
    + rewrite map_map. apply map_ext_in. intros c Hc. apply (Hall c Hc).
    + symmetry. apply forallb_forall. intros c Hc.
      apply in_map_iff in Hc as (c0 & <- & Hin). apply (Hall c0 Hin).
  - rewrite length_map, length_app. cbn [length]. lia.
Qed.

End FrameProperties.

(** ** The figures of the page *)

Lemma occurrences_cons k x col :
  occurrences k (x :: col)
  = (if decide (x = k) then 1 else 0) + occurrences k col.
Proof.
  unfold occurrences. rewrite filter_cons.
  destruct (decide (x = k)); cbn [length]; lia.
Qed.

Lemma occurrences_pos k col : 0 < occurrences k col <-> In k col.
Proof.
  induction col as [|x col IH].
  { unfold occurrences. rewrite filter_nil. cbn. intuition lia. }
  rewrite occurrences_cons. cbn [In].
  assert (0 <= occurrences k col) by (unfold occurrences; lia).
  destruct (decide (x = k)) as [->|Hne]; [intuition lia|].
  rewrite Z.add_0_l, IH. intuition congruence.
Qed.

Lemma dropna_cons v col :
  dropna (v :: col) = match v with
                      | Some x => x :: dropna col
                      | None => dropna col
                      end.
Proof. destruct v; reflexivity. Qed.

Lemma occurrences_rows k df :
  occurrences k (dropna (map email_domain df)) = rows_with_domain (Some k) df.
Proof.
  unfold rows_with_domain.
  induction df as [|r df IH]; [reflexivity|].
  rewrite filter_cons. cbn [map]. rewrite dropna_cons.
  destruct (email_domain r) as [v|] eqn:E.
  - rewrite occurrences_cons, IH.
    destruct (decide (Some v = Some k)) as [Heq|Hneq];
      destruct (decide (v = k)) as [Hvk|Hne];
      try congruence; cbn [length]; lia.
  - rewrite IH. destruct (decide (None = Some k)); [discriminate|reflexivity].
Qed.

Lemma dropna_rows df :
  Z.of_nat (length (dropna (map email_domain df))) + rows_with_domain None df
  = total_users df.
Proof.
  unfold rows_with_domain, total_users.
  induction df as [|r df IH]; [reflexivity|].
  rewrite filter_cons. cbn [map]. rewrite dropna_cons.
  destruct (email_domain r) as [v|].
  - destruct (decide (Some v = None)); [discriminate|]. cbn [length]. lia.
  - destruct (decide (@None str = None)); [|congruence]. cbn [length]. lia.
Qed.

Lemma In_dropna k (col : list (option str)) : In k (dropna col) <-> In (Some k) col.
Proof.
  unfold dropna. rewrite <- !list_elem_of_In, list_elem_of_omap. split.
  - intros (x & Hx & ->). exact Hx.
  - intros H. exists (Some k). auto.
Qed.

Lemma In_counts k c col :
  In (k, c) (counts col) <->
  In (Some k) col /\ c = occurrences k (dropna col).
Proof.
  unfold counts. rewrite in_map_iff. split.
  - intros (k' & [= -> <-] & Hin). split; [|reflexivity].
    apply In_dropna, list_elem_of_In. apply list_elem_of_In in Hin.
    rewrite elem_of_remove_dups in Hin. exact Hin.
  - intros [Hin ->]. exists k. split; [reflexivity|].
    apply list_elem_of_In, elem_of_remove_dups, list_elem_of_In, In_dropna, Hin.
Qed.

Lemma counts_keys col : map fst (counts col) = remove_dups (dropna col).
Proof.
  unfold counts. rewrite map_map. cbn. apply map_id.
Qed.

Lemma sum_counts_perm l1 l2 : l1 ≡ₚ l2 -> sum_counts l1 = sum_counts l2.
Proof.
  unfold sum_counts.
  induction 1 as [|x l1 l2 _ IH|x y l|l1 l2 l3 _ IH1 _ IH2]; cbn; lia.
Qed.

Lemma sum_indicator (x : str) ks :
  NoDup ks -> In x ks ->
  fold_right Z.add 0 (map (fun k => if decide (x = k) then 1 else 0) ks) = 1.
Proof.
  induction ks as [|k ks IH]; [intros _ []|].
  intros Hnd. inversion Hnd as [|? ? Hk Hks]; subst.
  rewrite list_elem_of_In in Hk. cbn [map fold_right In].
  destruct (decide (x = k)) as [->|Hne].
  - intros _.
    assert (H0 : fold_right Z.add 0
                   (map (fun k' => if decide (k = k') then 1 else 0) ks) = 0).
    { clear IH Hks Hnd. induction ks as [|k' ks IH]; [reflexivity|].
      cbn [map fold_right]. cbn [In] in Hk.
      destruct (decide (k = k')) as [Heq|_];
        [exfalso; apply Hk; left; symmetry; exact Heq|].
      rewrite IH by tauto. reflexivity. }
    lia.
  - intros [->|Hin]; [congruence|]. rewrite (IH Hks Hin). reflexivity.
Qed.

Lemma sum_occurrences ks col :
  NoDup ks -> (forall x, In x col -> In x ks) ->
  fold_right Z.add 0 (map (fun k => occurrences k col) ks)
  = Z.of_nat (length col).
Proof.
  intros Hnd. induction col as [|x col IH]; intros Hsub.
  - clear. induction ks as [|k ks IH]; [reflexivity|].
    cbn [map fold_right]. rewrite IH. reflexivity.
  - assert (Hsplit : forall ks',
      fold_right Z.add 0 (map (fun k => occurrences k (x :: col)) ks')
      = fold_right Z.add 0
          (map (fun k => if decide (x = k) then 1 else 0) ks')
        + fold_right Z.add 0 (map (fun k => occurrences k col) ks')).
    { induction ks' as [|k ks' IH']; [reflexivity|].
      cbn [map fold_right]. rewrite IH', occurrences_cons. lia. }
    rewrite Hsplit, IH, sum_indicator; cbn [length In] in *; auto. lia.
Qed.

Lemma sum_counts_counts col :
  sum_counts (counts col) = Z.of_nat (length (dropna col)).
Proof.
  unfold sum_counts, counts. rewrite map_map. cbn.
  apply sum_occurrences; [apply NoDup_remove_dups|].
  intros x Hx. apply list_elem_of_In, elem_of_remove_dups, list_elem_of_In, Hx.
Qed.

Lemma series_max_spec z col :
  exists m, series_max (z :: col) = Some m /\ In m (z :: col) /\
            forall x, In x (z :: col) -> x <= m.
Proof. exact (max_rowid_spec z col). Qed.

Section FigureProperties.
Context {PD : Pandas}.

Lemma In_value_counts a col : In a (value_counts col) <-> In a (counts col).
Proof.
  unfold value_counts. rewrite <- !list_elem_of_In, sort_values_desc_perm.
  reflexivity.
Qed.

(** X10: the data of the bar and donut charts lists every domain that
    occurs in the frame exactly once, with the number of rows that have
    it; rows without a domain are not listed, and no listed count is
    zero. *)
Theorem dom_counts_spec df :
  NoDup (map fst (dom_counts df)) /\
  forall k c, In (k, c) (dom_counts df) <->
              c = rows_with_domain (Some k) df /\ 0 < c.
Proof.
  unfold dom_counts. split.
  - assert (H : map fst (value_counts (map email_domain df))
                ≡ₚ map fst (counts (map email_domain df))).
    { apply Permutation_map. unfold value_counts. apply sort_values_desc_perm. }
    rewrite H, counts_keys. apply NoDup_remove_dups.
  - intros k c. rewrite In_value_counts, In_counts, occurrences_rows.
    rewrite <- In_dropna, <- occurrences_pos, occurrences_rows.
    split; [intros [H ->]|intros [-> H]]; auto.
Qed.

(** X11: the counts of the charts add up to the number of rows that have
    a domain: together with the rows without one they make up the
    frame. *)
Theorem dom_counts_total df :
  sum_counts (dom_counts df) + rows_with_domain None df = total_users df.
Proof.
  unfold dom_counts, value_counts.
  rewrite (sum_counts_perm _ _ (sort_values_desc_perm _)).
  rewrite sum_counts_counts. apply dropna_rows.
Qed.

(** X13: the metric of unique domains is the number of entries of the
    chart data, and it never exceeds the metric of total users. *)
Theorem unique_domains_metric df :
  nunique (map email_domain df) = Z.of_nat (length (dom_counts df)) /\
  0 <= nunique (map email_domain df) <= total_users df.
Proof.
  unfold nunique, dom_counts, value_counts.
  rewrite sort_values_desc_perm. unfold counts. rewrite length_map.
  split; [reflexivity|]. split; [lia|].
  pose proof (dropna_rows df) as H. unfold rows_with_domain in H.
  assert (length (remove_dups (dropna (map email_domain df)))
          <= length (dropna (map email_domain df)))%nat.
  { apply submseteq_length, sublist_submseteq.
    clear. induction (dropna (map email_domain df)) as [|x l IH];
      [constructor|].
    cbn. destruct (decide_rel elem_of x l); constructor; exact IH. }
  lia.
Qed.

End FigureProperties.

Section MetricProperties.
Context {RT : Runtime}.

(** X14: the metric of the longest name is undefined exactly for an empty
    table; otherwise it is the [name_length] of some row and no row has a
    larger one, and it is at least 4 as soon as a row has no name. *)
Theorem longest_name_metric db df db' :
  load_data db = (Returned df, db') ->
  (series_max (map name_length df) = None <-> df = []) /\
  (forall m, series_max (map name_length df) = Some m ->
     (exists r, In r df /\ name_length r = m) /\
     (forall r, In r df -> name_length r <= m) /\
     (forall r, In r df -> name (row_fields r) = None -> 4 <= m)).
Proof.
  intros Hload. split.
  - destruct df; cbn; split; congruence.
  - intros m Hm. destruct df as [|r0 df]; [discriminate|].
    cbn [map] in Hm.
    destruct (series_max_spec (name_length r0) (map name_length df))
      as (m' & Hm' & Hin & Hmax).
    assert (m' = m) by congruence. subst m'.
    change (name_length r0 :: map name_length df)
      with (map name_length (r0 :: df)) in Hin, Hmax.
    split; [|split].
    + apply in_map_iff in Hin as (r & <- & Hr). eauto.
    + intros r Hr. apply Hmax, in_map, Hr.
    + intros r Hr Hname.
      assert (Hle : name_length r <= m) by (apply Hmax, in_map, Hr).
      destruct (load_data_rows _ _ _ _ Hload Hr) as (t & i & f & _ & _ & ->).
      cbn in Hname, Hle. rewrite Hname in Hle. exact Hle.
Qed.

End MetricProperties.

(** ** Memoization and the refresh button *)

Section ButtonProperties.
Context {RT : Runtime}.

Lemma not_st_rerun_show msgs : ~ In st_rerun (map st_show msgs).
Proof. intros H. apply in_map_iff in H as (m & [=] & _). Qed.

(** The two ways a click can end. *)
Lemma refresh_button_cases expired http a :
  exists result msgs a1,
    cached_fetch expired http a = (result, msgs, a1) /\
    ((truthy result = true /\
      refresh_button expired http a
      = (map st_show msgs ++ [st_success (default 0 result); st_rerun],
         cache_data_clear a1))
     \/
     (truthy result = false /\
      refresh_button expired http a = (map st_show msgs, a1) /\
      fetch_entry (memo a1) = Some (result, msgs) /\
      load_entry (memo a1) = load_entry (memo a))).
Proof.
  unfold refresh_button.
  destruct (cached_fetch expired http a) as [[result msgs] a1] eqn:E.
  exists result, msgs, a1. split; [reflexivity|].
  destruct (truthy result) eqn:T; [left; auto|right].
  split; [reflexivity|]. split; [reflexivity|].
  unfold cached_fetch in E.
  destruct (fetch_entry (memo a)) as [[r0 m0]|] eqn:F;
    [destruct expired|].
  - destruct (fetch_and_store_data http (file a)) as [[r1 m1] db].
    injection E as <- <- <-. cbn. auto.
  - injection E as <- <- <-. auto.
  - destruct (fetch_and_store_data http (file a)) as [[r1 m1] db].
    injection E as <- <- <-. cbn. destruct expired; auto.
Qed.

(** X15: after any click the entry stored for the refresh, if there is
    one, holds a failure or an empty result, never a count of records:
    so the hour of memoization never stands between the user and a new
    fetch after a refresh that brought data. *)
Theorem click_never_stores_success expired http a :
  no_truthy_entry (memo (snd (refresh_button expired http a))).
Proof.
  destruct (refresh_button_cases expired http a)
    as (result & msgs & a1 & _ & [[_ ->]|(T & -> & F & _)]); cbn.
  - exact I.
  - unfold no_truthy_entry. rewrite F. exact T.
Qed.

(** X16: when the success message is shown the API was contacted by this
    very click, provided no earlier success is stored (which X15 makes
    sure of): the run returned the count shown, the count is not zero,
    the file is what that run left, and both caches are empty. *)
Theorem success_message_means_fetched expired http a evs a' n :
  no_truthy_entry (memo a) ->
  refresh_button expired http a = (evs, a') ->
  In (st_success n) evs ->
  n <> 0 /\
  evs = [st_success n; st_rerun] /\
  fetch_and_store_data http (file a) = (Some n, [], file a') /\
  memo a' = Caches None None.
Proof.
  intros Hinv Hclick Hin. unfold refresh_button, cached_fetch in Hclick.
  unfold no_truthy_entry in Hinv.
  assert (Hrun : forall r m db,
            fetch_and_store_data http (file a) = (r, m, db) ->
            (if truthy r
             then (map st_show m ++ [st_success (default 0 r); st_rerun],
                   cache_data_clear
                     (App db (Caches (Some (r, m)) (load_entry (memo a)))))
             else (map st_show m,
                   App db (Caches (Some (r, m)) (load_entry (memo a)))))
            = (evs, a') ->
            n <> 0 /\ evs = [st_success n; st_rerun] /\
            fetch_and_store_data http (file a) = (Some n, [], file a') /\
            memo a' = Caches None None).
  { intros r m db Hf Hev. destruct r as [k|]; cbn in Hev.
    - assert (m = []) by (eapply fetch_success_no_message; exact Hf).
      subst m.
      destruct (k =? 0) eqn:K; cbn in Hev; injection Hev as <- <-.
      + destruct Hin.
      + apply Z.eqb_neq in K.
        destruct Hin as [[= <-]|[[=]|[]]]. cbn. auto.
    - injection Hev as <- <-. apply in_map_iff in Hin as (? & [=] & _). }
  destruct (fetch_entry (memo a)) as [[r0 m0]|]; [destruct expired|].
  - destruct (fetch_and_store_data http (file a)) as [[r m] db] eqn:Hf.
    eapply Hrun; [reflexivity|exact Hclick].
  - rewrite Hinv in Hclick. injection Hclick as <- <-.
    apply in_map_iff in Hin as (? & [=] & _).
  - assert (Hc : match fetch_and_store_data http (file a) with
                 | (r, m, db) =>
                     if truthy r
                     then (map st_show m
                             ++ [st_success (default 0 r); st_rerun],
                           cache_data_clear
                             (App db (Caches (Some (r, m))
                                        (load_entry (memo a)))))
                     else (map st_show m,
                           App db (Caches (Some (r, m))
                                     (load_entry (memo a))))
                 end = (evs, a')).
    { destruct expired; destruct (fetch_and_store_data http (file a))
        as [[r m] db]; exact Hclick. }
    destruct (fetch_and_store_data http (file a)) as [[r m] db] eqn:Hf.
    eapply Hrun; [reflexivity|exact Hc].
Qed.

(** X17: a click that does not end in the success message (the refresh
    failed, or fetched nothing) is remembered: a second click within the
    hour shows the same messages and changes nothing, whatever the API
    would answer by then. *)
Theorem unsuccessful_click_is_memoized expired http a evs a' http' :
  refresh_button expired http a = (evs, a') ->
  ~ In st_rerun evs ->
  refresh_button false http' a' = (evs, a').
Proof.
  intros Hclick Hno.
  destruct (refresh_button_cases expired http a)
    as (result & msgs & a1 & _ & [[_ H]|(T & H & F & _)]);
    rewrite H in Hclick; injection Hclick as <- <-.
  - exfalso. apply Hno, in_or_app. right. right. left. reflexivity.
  - unfold refresh_button, cached_fetch. rewrite F, T. reflexivity.
Qed.

(** X18: a click that does not end in the success message leaves the
    stored frame in place, so the page goes on showing it; in particular
    a refresh that fetches an empty collection empties the table, shows
    no message at all, and the page still shows the rows of before. *)
Theorem unsuccessful_click_keeps_frame expired http a evs a' df :
  load_entry (memo a) = Some df ->
  refresh_button expired http a = (evs, a') ->
  ~ In st_rerun evs ->
  cached_load a' = (Returned df, a') /\
  (forall body,
      http = Returned (Response 200 (Returned body)) ->
      py_iter body = Returned [] ->
      fetch_entry (memo a) = None \/ expired = true ->
      evs = [] /\ file a' = Some ∅).
Proof.
  intros Hdf Hclick Hno.
  destruct (refresh_button_cases expired http a)
    as (result & msgs & a1 & Hcf & [[_ H]|(T & H & F & L)]);
    rewrite H in Hclick; injection Hclick as <- <-.
  - exfalso. apply Hno, in_or_app. right. right. left. reflexivity.
  - split.
    + unfold cached_load. rewrite L, Hdf. reflexivity.
    + intros body -> Hbody Hmiss. unfold cached_fetch in Hcf.
      rewrite (fetch_parsed_empty body (file a) Hbody) in Hcf.
      destruct Hmiss as [Hmiss | ->];
        [rewrite Hmiss in Hcf; destruct expired
        |destruct (fetch_entry (memo a)) as [[? ?]|]];
        injection Hcf as <- <- <-; cbn; auto.
Qed.

(** X19: a click that contacts the API and fetches a well-formed
    collection that is not empty shows the success message with the
    number of records and starts the script again with both caches
    empty; the load that follows reads the table anew and returns the
    derived rows of the fetched records, whatever frame was stored. *)
Theorem successful_click_shows_fetched_rows expired users a :
  fetch_entry (memo a) = None \/ expired = true ->
  well_formed_users users -> users <> [] ->
  exists a' df a'',
    refresh_button expired (ok_response users) a
      = ([st_success (Z.of_nat (length users)); st_rerun], a') /\
    cached_load a' = (Returned df, a'') /\
    df ≡ₚ map derive (map record_row users) /\
    load_entry (memo a'') = Some df.
Proof.
  intros Hmiss [Hwf Hnd] Hne.
  assert (Hfetch : cached_fetch expired (ok_response users) a
                   = (Some (Z.of_nat (length users)), [],
                      App (Some (store_all ∅ users))
                          (Caches (Some (Some (Z.of_nat (length users)), []))
                                  (load_entry (memo a))))).
  { unfold cached_fetch. rewrite fetch_well_formed by exact Hwf.
    destruct Hmiss as [-> | ->];
      [destruct expired|destruct (fetch_entry (memo a)) as [[? ?]|]];
      reflexivity. }
  assert (Htruthy : truthy (Some (Z.of_nat (length users))) = true).
  { cbn. apply negb_true_iff, Z.eqb_neq. destruct users; [congruence|].
    cbn [length]. lia. }
  do 3 eexists. split; [|split; [|split]].
  - unfold refresh_button. rewrite Hfetch, Htruthy. reflexivity.
  - unfold cached_load, cache_data_clear. cbn [load_entry memo file].
    rewrite load_data_present. reflexivity.
  - apply Permutation_map, store_all_Permutation, Hnd.
  - reflexivity.
Qed.

End ButtonProperties.

(** ** The further properties on sample data *)

Lemma fetch_failure_outcome_witness :
  fetch_and_store_data (RT := ascii_runtime)
    (Returned (Response 200 (Returned (PyInt 3)))) (Some sample_table)
  = (None, [st_error_exception TypeError], Some ∅) /\
  (exists m, [st_error_exception TypeError] = [m]).
Proof.
  assert (H : fetch_and_store_data (RT := ascii_runtime)
                (Returned (Response 200 (Returned (PyInt 3))))
                (Some sample_table)
              = (None, [st_error_exception TypeError], Some ∅))
    by reflexivity.
  split; [exact H|]. exact (proj1 (fetch_failure_outcome _ _ _ _ H)).
Defined.

Lemma fetch_success_outcome_witness :
  let out := snd (fetch_and_store_data (RT := ascii_runtime)
                    (ok_response [leanne; ervin; ervin']) None) in
  fetch_and_store_data (RT := ascii_runtime)
    (ok_response [leanne; ervin; ervin']) None = (Some 3, [], out) /\
  exists t : table, out = Some t /\ Z.of_nat (size t) <= 3.
Proof.
  intros out.
  assert (H : fetch_and_store_data (RT := ascii_runtime)
                (ok_response [leanne; ervin; ervin']) None
              = (Some 3, [], out))
    by (vm_compute; reflexivity).
  split; [exact H|].
  destruct (fetch_success_outcome _ _ _ _ _ H)
    as (_ & users & us & t & _ & _ & _ & Hout & Hsize).
  exists t. split; [exact Hout|exact Hsize].
Defined.

Lemma fetch_empty_body_witness :
  py_iter (PyDict []) = Returned [] /\
  fetch_and_store_data (RT := ascii_runtime)
    (Returned (Response 200 (Returned (PyDict [])))) (Some sample_table)
  = (Some 0, [], Some ∅).
Proof.
  assert (H : py_iter (PyDict []) = Returned []) by reflexivity.
  split; [exact H|].
  exact (fetch_empty_body (RT := ascii_runtime) _ (Some sample_table) H).
Defined.

Lemma fetch_body_not_array_witness :
  let body := PyDict [(lit "error", PyStr (lit "down"))] in
  (forall l, body <> PyList l) /\ py_iter body <> Returned [] /\
  fetch_and_store_data (RT := ascii_runtime)
    (Returned (Response 200 (Returned body))) (Some sample_table)
  = (None, [st_error_exception AttributeError], Some ∅).
Proof.
  intros body.
  assert (H1 : forall l, body <> PyList l) by (intros l; discriminate).
  assert (H2 : py_iter body <> Returned []) by (vm_compute; discriminate).
  split; [exact H1|]. split; [exact H2|].
  exact (fetch_body_not_array (RT := ascii_runtime) body
           (Some sample_table) H1 H2).
Defined.


Lemma fetch_missing_ids_numbered_witness :
  let users := [nameless "Patricia"; nameless "Chelsey"] in
  Forall (fun u => anonymous_user u = true) users /\
  Z.of_nat (length users) <= int64_max /\
  exists t : table,
    fetch_and_store_data (RT := ascii_runtime) (ok_response users)
      (Some sample_table) = (Some 2, [], Some t) /\
    t !! 2 = Some (record_fields (nameless "Chelsey")).
Proof.
  intros users.
  assert (H1 : Forall (fun u => anonymous_user u = true) users)
    by (repeat constructor).
  assert (H2 : Z.of_nat (length users) <= int64_max)
    by (unfold int64_max; cbn; lia).
  split; [exact H1|]. split; [exact H2|].
  destruct (fetch_missing_ids_numbered (RT := ascii_runtime) users
              (Some sample_table) H1 H2) as (t & Hrun & _ & Hrows).
  exists t. split; [exact Hrun|].
  exact (Hrows 1%nat (nameless "Chelsey") eq_refl).
Defined.



Lemma email_domain_normalised_witness :
  let r := derive (RT := ascii_runtime)
             (1, sample_fields "Leanne Graham" "a.b@Example.COM") in
  load_data (RT := ascii_runtime) (Some sample_table)
    = (Returned sample_frame, Some sample_table) /\
  In r sample_frame /\
  forallb is_ascii (lit "a.b@Example.COM") = true /\
  ~ In at_sign (lit "example.com") /\
  lower (RT := ascii_runtime) (lit "example.com") = lit "example.com".
Proof.
  intros r.
  assert (Hload : load_data (RT := ascii_runtime) (Some sample_table)
                  = (Returned sample_frame, Some sample_table))
    by (vm_compute; reflexivity).
  assert (Hin : In r sample_frame) by (vm_compute; left; reflexivity).
  assert (Hascii : forallb is_ascii (lit "a.b@Example.COM") = true)
    by reflexivity.
  split; [exact Hload|]. split; [exact Hin|]. split; [exact Hascii|].
  destruct (email_domain_normalised (RT := ascii_runtime) _ _ _ r
              (lit "a.b@Example.COM") (lit "example.com")
              Hload Hin eq_refl Hascii eq_refl) as (H1 & _ & H3 & _).
  split; [exact H1|exact H3].
Defined.

Lemma dom_counts_spec_witness :
  In (lit "example.com", 1) (dom_counts (PD := stable_pandas) sample_frame) <->
  1 = rows_with_domain (Some (lit "example.com")) sample_frame /\ 0 < 1.
Proof.
  exact (proj2 (dom_counts_spec (PD := stable_pandas) sample_frame)
               (lit "example.com") 1).
Defined.

Lemma dom_counts_total_witness :
  sum_counts (dom_counts (PD := stable_pandas) sample_frame)
  + rows_with_domain None sample_frame = total_users sample_frame.
Proof. exact (dom_counts_total (PD := stable_pandas) sample_frame). Defined.

Lemma unique_domains_metric_witness :
  nunique (map email_domain sample_frame)
  = Z.of_nat (length (dom_counts (PD := stable_pandas) sample_frame)).
Proof.
  exact (proj1 (unique_domains_metric (PD := stable_pandas) sample_frame)).
Defined.

Lemma longest_name_metric_witness :
  load_data (RT := ascii_runtime) (Some sample_table)
    = (Returned sample_frame, Some sample_table) /\
  series_max (map name_length sample_frame) = Some 13 /\
  exists r, In r sample_frame /\ name_length r = 13.
Proof.
  assert (Hload : load_data (RT := ascii_runtime) (Some sample_table)
                  = (Returned sample_frame, Some sample_table))
    by (vm_compute; reflexivity).
  assert (Hmax : series_max (map name_length sample_frame) = Some 13)
    by (vm_compute; reflexivity).
  split; [exact Hload|]. split; [exact Hmax|].
  exact (proj1 (proj2 (longest_name_metric (RT := ascii_runtime) _ _ _ Hload)
                      13 Hmax)).
Defined.

Lemma click_never_stores_success_witness :
  no_truthy_entry
    (memo (snd (refresh_button (RT := ascii_runtime) false
                  (ok_response [leanne]) sample_app))).
Proof.
  exact (click_never_stores_success (RT := ascii_runtime) false
           (ok_response [leanne]) sample_app).
Defined.

Lemma success_message_means_fetched_witness :
  let a' := snd (refresh_button (RT := ascii_runtime) false
                   (ok_response [leanne]) sample_app) in
  no_truthy_entry (memo sample_app) /\
  refresh_button (RT := ascii_runtime) false (ok_response [leanne]) sample_app
    = ([st_success 1; st_rerun], a') /\
  In (st_success 1) [st_success 1; st_rerun] /\
  memo a' = Caches None None.
Proof.
  intros a'.
  assert (H1 : no_truthy_entry (memo sample_app)) by exact I.
  assert (H2 : refresh_button (RT := ascii_runtime) false
                 (ok_response [leanne]) sample_app
               = ([st_success 1; st_rerun], a'))
    by (vm_compute; reflexivity).
  assert (H3 : In (st_success 1) [st_success 1; st_rerun])
    by (left; reflexivity).
  split; [exact H1|]. split; [exact H2|]. split; [exact H3|].
  destruct (success_message_means_fetched (RT := ascii_runtime)
              _ _ _ _ _ _ H1 H2 H3) as (_ & _ & _ & H).
  exact H.
Defined.

Lemma unsuccessful_click_is_memoized_witness :
  let a' := snd (refresh_button (RT := ascii_runtime) false
                   server_error sample_app) in
  refresh_button (RT := ascii_runtime) false server_error sample_app
    = ([st_show (st_error_api 500)], a') /\
  ~ In st_rerun [st_show (st_error_api 500)] /\
  refresh_button (RT := ascii_runtime) false (ok_response [leanne]) a'
    = ([st_show (st_error_api 500)], a').
Proof.
  intros a'.
  assert (H1 : refresh_button (RT := ascii_runtime) false server_error
                 sample_app = ([st_show (st_error_api 500)], a'))
    by (vm_compute; reflexivity).
  assert (H2 : ~ In st_rerun [st_show (st_error_api 500)])
    by (intros [H|[]]; discriminate H).
  split; [exact H1|]. split; [exact H2|].
  exact (unsuccessful_click_is_memoized (RT := ascii_runtime)
           _ _ _ _ _ (ok_response [leanne]) H1 H2).
Defined.

Lemma unsuccessful_click_keeps_frame_witness :
  let a' := snd (refresh_button (RT := ascii_runtime) false
                   (ok_response []) sample_app) in
  load_entry (memo sample_app) = Some sample_frame /\
  refresh_button (RT := ascii_runtime) false (ok_response []) sample_app
    = ([], a') /\
  ~ In st_rerun [] /\
  cached_load (RT := ascii_runtime) a' = (Returned sample_frame, a') /\
  file a' = Some ∅.
Proof.
  intros a'.
  assert (H1 : load_entry (memo sample_app) = Some sample_frame)
    by reflexivity.
  assert (H2 : refresh_button (RT := ascii_runtime) false (ok_response [])
                 sample_app = ([], a'))
    by (vm_compute; reflexivity).
  assert (H3 : ~ In st_rerun []) by (intros []).
  split; [exact H1|]. split; [exact H2|]. split; [exact H3|].
  destruct (unsuccessful_click_keeps_frame (RT := ascii_runtime)
              _ _ _ _ _ _ H1 H2 H3) as [Hload Hempty].
  split; [exact Hload|].
  exact (proj2 (Hempty (PyList []) eq_refl eq_refl (or_introl eq_refl))).
Defined.

Lemma successful_click_shows_fetched_rows_witness :
  (fetch_entry (memo sample_app) = None \/ false = true) /\
  well_formed_users [ervin'] /\ [ervin'] <> [] /\
  exists a',
    refresh_button (RT := ascii_runtime) false (ok_response [ervin'])
      sample_app = ([st_success 1; st_rerun], a').
Proof.
  assert (H1 : fetch_entry (memo sample_app) = None \/ false = true)
    by (left; reflexivity).
  assert (H2 : well_formed_users [ervin']).
  { split; [repeat constructor|].
    apply (bool_decide_unpack _). vm_compute. exact I. }
  assert (H3 : [ervin'] <> []) by discriminate.
  split; [exact H1|]. split; [exact H2|]. split; [exact H3|].
  destruct (successful_click_shows_fetched_rows (RT := ascii_runtime)
              false [ervin'] sample_app H1 H2 H3) as (a' & _ & _ & Hclick & _).
  exists a'. exact Hclick.
Defined.

(** A record without an id is numbered 1; the record with id 1 that
    follows replaces it: two records fetched, one row kept. *)
Example fetch_null_id_overwritten :
  fetch_and_store_data (RT := ascii_runtime)
    (ok_response [nameless "Patricia"; leanne]) None
  = (Some 2, [],
     Some {[ 1 := sample_fields "Leanne Graham" "a.b@Example.COM" ]}).
Proof. vm_compute. reflexivity. Qed.
